(** * Heading inference pipeline of [Main.py]

    A shallow embedding of the outline extractor: the text helpers
    ([has_cjk], [is_valid_heading]), the title extractor
    ([extract_title]), the font-size ranking ([get_heading_levels]), the
    header/footer detector ([find_repeated_elements]) and the assembly
    loop ([extract_outline]).

    Data model.
    - A Python [str] is a sequence of Unicode code points: [list N].
    - Font sizes, coordinates and page heights are Python floats.  The
      code compares them, which is exact, and multiplies by the constants
      0.1, 0.9 and 0.8.  They are modelled by rationals [Q], [==] being
      [Qeq]; the products with the page height are rounded to the nearest
      double as the machine does ([fmul]).
    - [dict]s with a fixed key set are records; the [defaultdict(int)]
      counter is a [gmap]; the set it is filtered into is a [gset].
    - Exceptions are values of [exn], carried by [result]. *)

From Stdlib Require Import QArith Qminmax.
From Stdlib Require Import String Ascii.
From stdpp Require Import gmap list sorting.

Local Open Scope Z_scope.
Local Open Scope N_scope.
Local Open Scope nat_scope.

(** ** Python strings *)

Module Py.

(** A character is its code point. *)
Definition char := N.
Definition str := list N.

(** ASCII literals of the source. *)
Definition lit (s : string) : str :=
  List.map N_of_ascii (list_ascii_of_string s).

(** [c.isspace()], as used by [str.strip()] and [str.split()] without
    arguments: the code points CPython's [_PyUnicode_IsWhitespace] accepts. *)
Definition isspace (c : char) : bool :=
  ((9 <=? c) && (c <=? 13))%N || ((28 <=? c) && (c <=? 32))%N ||
  (c =? 133)%N || (c =? 160)%N || (c =? 5760)%N ||
  ((8192 <=? c) && (c <=? 8202))%N || (c =? 8232)%N || (c =? 8233)%N ||
  (c =? 8239)%N || (c =? 8287)%N || (c =? 12288)%N.

(** [s.lstrip()], [s.rstrip()], [s.strip()]. *)
Fixpoint lstrip (s : str) : str :=
  match s with
  | [] => []
  | c :: s' => if isspace c then lstrip s' else s
  end.

Fixpoint rstrip (s : str) : str :=
  match s with
  | [] => []
  | c :: s' =>
      match rstrip s' with
      | [] => if isspace c then [] else [c]
      | r => c :: r
      end
  end.

Definition strip (s : str) : str := rstrip (lstrip s).

(** [s.split()]: maximal runs of non-whitespace characters, in order.
    [cur] is the word being read. *)
Fixpoint split_go (cur : str) (s : str) : list str :=
  match s with
  | [] => match cur with [] => [] | _ => [cur] end
  | c :: s' =>
      if isspace c
      then match cur with [] => split_go [] s' | _ => cur :: split_go [] s' end
      else split_go (cur ++ [c]) s'
  end.

Definition split (s : str) : list str := split_go [] s.

(** [s.startswith(p)] and [s.endswith(p)]. *)
Fixpoint startswith (s p : str) : bool :=
  match p, s with
  | [], _ => true
  | _ :: _, [] => false
  | a :: p', c :: s' => (a =? c)%N && startswith s' p'
  end.

Definition endswith (s p : str) : bool := startswith (rev s) (rev p).

(** [s.replace(old, '')] for a non-empty [old]: scanning from the left,
    each occurrence of [old] found is dropped and the scan resumes after
    it.  [skip] counts the characters of the current occurrence that are
    still to be dropped. *)
Fixpoint remove_go (old : str) (skip : nat) (s : str) : str :=
  match s with
  | [] => []
  | c :: s' =>
      match skip with
      | S k => remove_go old k s'
      | O => if startswith s old
             then remove_go old (length old - 1) s'
             else c :: remove_go old 0 s'
      end
  end.

Definition remove_all (old s : str) : str := remove_go old 0 s.

(** [s[:-k]] for a positive [k]: all but the last [k] characters (the
    empty string when [len(s) <= k]). *)
Definition drop_last (k : nat) (s : str) : str := take (length s - k) s.

(** [sub in s]: [sub] occurs in [s] as a substring. *)
Fixpoint contains (s sub : str) : bool :=
  startswith s sub ||
  match s with
  | [] => false
  | _ :: s' => contains s' sub
  end.

End Py.

(** ** Floats *)

(** [x < y] and [x >= y] on floats; [==] is [Qeq_bool]. *)
Definition Qlt_bool (x y : Q) : bool := negb (Qle_bool y x).

(** The integer nearest to [n / d], ties to the even one, for [0 <= n]
    and [0 < d]. *)
Definition round_half_even (n d : Z) : Z :=
  let q := (n / d)%Z in
  match (2 * (n mod d) ?= d)%Z with
  | Lt => q
  | Gt => (q + 1)%Z
  | Eq => if Z.even q then q else (q + 1)%Z
  end.

(** [2 ^ k] for [0 <= k], and 1 otherwise. *)
Definition pow2 (k : Z) : Z := (2 ^ Z.max 0 k)%Z.

(** The double nearest to the positive rational [n / d], ties to even: a
    multiple [m * 2 ^ e] with [m] of 53 bits at most, the exponent [e]
    no lower than that of the subnormal numbers.  (Overflow to infinity
    is left out: the products taken below are smaller in size than one
    of their factors.) *)
Definition round64_pos (n d : positive) : Q :=
  let k := (Z.log2 (Zpos n) - Z.log2 (Zpos d))%Z in
  let l := if (Zpos d * pow2 k <=? Zpos n * pow2 (- k))%Z
           then k else (k - 1)%Z in
  let e := Z.max (l - 52) (-1074) in
  let m := round_half_even (Zpos n * pow2 (- e)) (Zpos d * pow2 e) in
  if (0 <=? e)%Z then inject_Z (m * pow2 e)
  else Qmake m (Z.to_pos (pow2 (- e))).

Definition round64 (x : Q) : Q :=
  match Qnum x with
  | Z0 => 0%Q
  | Zpos n => round64_pos n (Qden x)
  | Zneg n => (- round64_pos n (Qden x))%Q
  end.

(** [x * y] on floats. *)
Definition fmul (x y : Q) : Q := round64 (x * y).

(** The floats written [0.1] and [0.9]. *)
Definition float_0_1 : Q := 3602879701896397 # 36028797018963968.
Definition float_0_9 : Q := 8106479329266893 # 9007199254740992.

(** ** Unicode tables

    [str.isprintable], [str.lower] and the regular-expression class [\d]
    are defined by the Unicode character database, which is not part of
    the program.  The development is parametric in them. *)
Class Unicode := {
  isprintable : Py.str → bool;
  lower : Py.str → Py.str;
  isdecimal : Py.char → bool
}.

(** The restriction of the tables to ASCII, used to run the model. *)
Definition ascii_lower (c : Py.char) : Py.char :=
  if ((65 <=? c) && (c <=? 90))%N then (c + 32)%N else c.

Definition ascii_tables : Unicode := {|
  isprintable := forallb (λ c, (32 <=? c) && (c <=? 126))%N;
  lower := List.map ascii_lower;
  isdecimal := λ c, ((48 <=? c) && (c <=? 57))%N
|}.

(** ** Text helpers *)

(** [has_cjk(text)] *)
Definition has_cjk (text : Py.str) : bool :=
  existsb (λ c, ((0x4e00 <=? c) && (c <=? 0x9fff)) ||
                ((0x3040 <=? c) && (c <=? 0x30ff)) ||
                ((0xac00 <=? c) && (c <=? 0xd7af)))%N text.

Definition form_words : list Py.str :=
  List.map Py.lit
    ["name"; "age"; "date"; "rs"; "s.no"; "sno"; "signature"; "designation";
     "service"; "pay"; "si"; "npa"; "permanent"; "temporary"; "home"; "town";
     "recorded"; "book"; "wife"; "husband"; "employed"; "entitled"; "ltc";
     "concession"; "availed"; "visiting"; "block"; "india"; "place"; "visited";
     "single"; "rail"; "fare"; "bus"; "from"; "headquarters"; "shortest";
     "route"; "persons"; "respect"; "whom"; "proposed"; "relationship";
     "amount"; "advance"; "required"; "declare"; "particulars"; "furnished";
     "true"; "correct"; "knowledge"; "undertake"; "produce"; "tickets";
     "outward"; "journey"; "receipt"; "refund"; "entire"; "lump"; "sum"]%string.

Section Validity.
Context `{U : Unicode}.

(** The character class [[\d\.]], one or more times. *)
Definition digits_dots (s : Py.str) : bool :=
  match s with
  | [] => false
  | _ => forallb (λ c, isdecimal c || (c =? 46)%N) s
  end.

(** [re.match(r'^[\d\.]+$', text)]: [$] also matches just before a final
    newline. *)
Definition match_digits_dots (text : Py.str) : bool :=
  digits_dots text ||
  match rev text with
  | 10%N :: r => digits_dots (rev r)
  | _ => false
  end.

(** [is_valid_heading(text)] *)
Definition is_valid_heading (text : Py.str) : bool :=
  let text := Py.strip text in
  if length text <? 3 then false
  else if match_digits_dots text
          || ((length (Py.split text) =? 1) && (length text <? 4))
  then false
  else
    let words := Py.split (lower text) in
    let form_count :=
      length (List.filter (λ word, bool_decide (word ∈ form_words)) words) in
    if Qlt_bool (inject_Z (Z.of_nat (length words)) * (8 # 10))
                (inject_Z (Z.of_nat form_count))
    then false
    else if Py.endswith text (Py.lit ":") || (10 <? length (Py.split text))
    then false
    else true.

End Validity.

(** ** The parsed document

    What the parsing library hands over: a document has a metadata
    dictionary and pages; [page.get_text('dict')['blocks']] is a list of
    blocks; a text block has lines, a line has spans. *)

Record Span := {
  span_text : Py.str;
  span_size : Q;
  span_flags : Z;
  span_bbox : Q * Q * Q * Q
}.

Definition Line := list Span.

(** A block either carries the key ['lines'] or not. *)
Inductive Block :=
| TextBlock (lines : list Line)
| OtherBlock.

Record Page := {
  rect_height : Q;
  blocks : list Block
}.

Record Doc := {
  metadata_title : option Py.str;
  pages : list Page
}.

(** ** Exceptions *)

Inductive exn :=
| OpenError (cause : Py.str)
| IndexError
| ValueError
| WriteError (cause : Py.str).

Inductive result (A : Type) :=
| Ok (a : A)
| Raise (e : exn).
Arguments Ok {A} a.
Arguments Raise {A} e.

#[global] Instance result_ret : MRet result := λ A a, Ok a.
#[global] Instance result_bind : MBind result := λ A B f m,
  match m with
  | Ok a => f a
  | Raise e => Raise e
  end.

#[global] Instance result_fmap : FMap result := λ A B f m,
  match m with
  | Ok a => Ok (f a)
  | Raise e => Raise e
  end.

(** [doc[i]] *)
Definition getitem (doc : Doc) (i : nat) : result Page :=
  match pages doc !! i with
  | Some page => Ok page
  | None => Raise IndexError
  end.

(** ** Title *)

(** [span['flags'] & 2] as a truth value. *)
Definition flag2 (s : Span) : bool := negb (Z.land (span_flags s) 2 =? 0)%Z.

(** The spans of a page, block by block and line by line, skipping the
    blocks without lines. *)
Definition page_spans (page : Page) : list Span :=
  flat_map (λ block,
    match block with
    | TextBlock lines => flat_map (λ line, line) lines
    | OtherBlock => []
    end) (blocks page).

(** [max(l, key=lambda x: x[0])] on a list with first element [best]:
    the first element of greatest key. *)
Fixpoint max_by_key (best : Q * Py.str) (l : list (Q * Py.str)) : Q * Py.str :=
  match l with
  | [] => best
  | x :: l' => max_by_key (if Qlt_bool best.1 x.1 then x else best) l'
  end.

(** The metadata branch, after [title = meta.strip()]. *)
Definition clean_prefix (title : Py.str) : Py.str :=
  if Py.startswith title (Py.lit "Microsoft Word - ")
  then Py.remove_all (Py.lit "Microsoft Word - ") title
  else title.

Definition clean_suffix (title : Py.str) : Py.str :=
  if Py.endswith title (Py.lit ".doc") || Py.endswith title (Py.lit ".docx")
  then if Py.endswith title (Py.lit ".docx")
       then Py.drop_last 4 title
       else Py.drop_last 3 title
  else title.

(** The truth value of [meta and meta.strip()]. *)
Definition usable_meta (meta : option Py.str) : bool :=
  match meta with
  | Some m => match m with [] => false | _ => negb (bool_decide (Py.strip m = [])) end
  | None => false
  end.

(** [extract_title(doc)] *)
Definition extract_title (doc : Doc) : result Py.str :=
  if usable_meta (metadata_title doc)
  then
    let title := Py.strip (default [] (metadata_title doc)) in
    let title := clean_prefix title in
    let title := clean_suffix title in
    Ok title
  else
    page ← getitem doc 0;
    let candidates :=
      omap (λ span,
              let t := Py.strip (span_text span) in
              if negb (bool_decide (t = [])) && Qle_bool 15 (span_size span)
                 && flag2 span
              then Some (span_size span, t) else None)
           (page_spans page) in
    match candidates with
    | c :: cs => Ok (max_by_key c cs).2
    | [] =>
        let all_texts :=
          omap (λ span,
                  if negb (bool_decide (Py.strip (span_text span) = []))
                  then Some (span_size span, Py.strip (span_text span))
                  else None)
               (page_spans page) in
        match all_texts with
        | c :: cs => Ok (max_by_key c cs).2
        | [] => Ok (Py.lit "Untitled PDF")
        end
    end.

(** ** Heading levels *)

(** [Counter(l)]: the distinct values of [l] in order of first
    occurrence, each with its number of occurrences. *)
Fixpoint counter_add (x : Q) (c : list (Q * nat)) : list (Q * nat) :=
  match c with
  | [] => [(x, 1)]
  | (k, n) :: c' =>
      if Qeq_bool k x then (k, S n) :: c' else (k, n) :: counter_add x c'
  end.

Definition Counter (l : list Q) : list (Q * nat) :=
  foldl (λ c x, counter_add x c) [] l.

(** [sorted(l, reverse=True)] for the order [le], stable. *)
Fixpoint insert_desc {A} (le : A → A → bool) (x : A) (l : list A) : list A :=
  match l with
  | [] => [x]
  | y :: l' => if le y x then x :: l else y :: insert_desc le x l'
  end.

Definition sorted_desc {A} (le : A → A → bool) (l : list A) : list A :=
  foldr (insert_desc le) [] l.

(** [counts.most_common()]: the entries by decreasing count. *)
Definition most_common (counts : list (Q * nat)) : list (Q * nat) :=
  sorted_desc (λ a b, a.2 <=? b.2) counts.

(** [get_heading_levels(font_sizes)] *)
Definition get_heading_levels (font_sizes : list Q) : list Q :=
  let counts := Counter font_sizes in
  let common := (most_common counts).*1 in
  let common := sorted_desc Qle_bool common in
  take 3 (common ++ [0%Q; 0%Q; 0%Q]).

(** ** Collected lines *)

Record LineFeature := {
  text : Py.str;
  size : Q;
  bold : bool;
  y0 : Q;
  y1 : Q;
  page : nat
}.

(** ** Repeated elements *)

Definition in_margin (feat : LineFeature) (page_height : Q) : bool :=
  Qlt_bool (y0 feat) (fmul page_height float_0_1)
  || Qlt_bool (fmul page_height float_0_9) (y1 feat).

(** One iteration of the counting loop. *)
Definition count_step (page_height : Q) (counter : gmap Py.str nat)
    (feat : LineFeature) : gmap Py.str nat :=
  if in_margin feat page_height
  then <[text feat := default 0 (counter !! text feat) + 1]> counter
  else counter.

(** [find_repeated_elements(lines, num_pages, page_height)] *)
Definition find_repeated_elements (lines : list LineFeature) (num_pages : nat)
    (page_height : Q) : gset Py.str :=
  let counter := foldl (count_step page_height) ∅ lines in
  dom (filter (λ tc, num_pages / 2 < tc.2) counter).

(** ** Outline *)

Record OutlineEntry := {
  entry_level : Py.str;
  entry_text : Py.str;
  entry_page : nat
}.

Record DocumentOutline := {
  title : Py.str;
  outline : list OutlineEntry
}.

Definition MAX_PAGES : nat := 50.

(** The first component of [max] and [min] over a non-empty list. *)
Definition max_of (x : Q) (l : list Q) : Q :=
  foldl (λ m y, if Qlt_bool m y then y else m) x l.
Definition min_of (x : Q) (l : list Q) : Q :=
  foldl (λ m y, if Qlt_bool y m then y else m) x l.

Section Outline.
Context `{U : Unicode}.

(** The body of the innermost collecting loop for the line [line] of page
    [i]: [None] where the source [continue]s.  A line without spans joins
    to the empty text and is skipped by [not txt]. *)
Definition collect_line (i : nat) (line : Line) : option LineFeature :=
  let txt := Py.strip (concat (span_text <$> line)) in
  if bool_decide (txt = []) || negb (isprintable txt)
     || (20 <? length (Py.split txt))
  then None
  else
    match line with
    | [] => None
    | s :: ss =>
        Some {| text := txt;
                size := max_of (span_size s) (span_size <$> ss);
                bold := existsb flag2 line;
                y0 := min_of (span_bbox s).1.1.2 ((λ sp, (span_bbox sp).1.1.2) <$> ss);
                y1 := max_of (span_bbox s).2 ((λ sp, (span_bbox sp).2) <$> ss);
                page := i + 1 |}
    end.

Definition collect_page (i : nat) (pg : Page) : list LineFeature :=
  flat_map (λ block,
    match block with
    | TextBlock lines => omap (collect_line i) lines
    | OtherBlock => []
    end) (blocks pg).

(** The collecting loop over [range(num_pages)]. *)
Definition collect (doc : Doc) (num_pages : nat) : list LineFeature :=
  concat (imap collect_page (take num_pages (pages doc))).

Definition entry (level : string) (feat : LineFeature) : OutlineEntry :=
  {| entry_level := Py.lit level; entry_text := text feat; entry_page := page feat |}.

(** The branches that determine the heading level of a line. *)
Definition assign_level (h1_size h2_size h3_size : Q) (feat : LineFeature)
    : option OutlineEntry :=
  if Qeq_bool (size feat) h1_size && (bold feat || negb (has_cjk (text feat)))
  then Some (entry "H1" feat)
  else if Qeq_bool (size feat) h2_size then Some (entry "H2" feat)
  else if Qeq_bool (size feat) h3_size then Some (entry "H3" feat)
  else None.

(** One iteration of the heading loop. *)
Definition heading_step (repeated : gset Py.str) (h1_size h2_size h3_size : Q)
    (outline : list OutlineEntry) (feat : LineFeature) : list OutlineEntry :=
  if bool_decide (text feat ∈ repeated) || negb (is_valid_heading (text feat))
  then outline
  else match assign_level h1_size h2_size h3_size feat with
       | Some e => outline ++ [e]
       | None => outline
       end.

(** [extract_outline(pdf_path)], given the outcome of [fitz.open]. *)
Definition extract_outline (opened : result Doc) : result DocumentOutline :=
  doc ← opened;
  let num_pages := length (pages doc) `min` MAX_PAGES in
  page_height ←
    (if 0 <? num_pages then pg ← getitem doc 0; Ok (rect_height pg)
     else Ok 0%Q);
  let lines := collect doc num_pages in
  let font_sizes := size <$> lines in
  let repeated := find_repeated_elements lines num_pages page_height in
  match get_heading_levels font_sizes with
  | [h1_size; h2_size; h3_size] =>
      let outline := foldl (heading_step repeated h1_size h2_size h3_size) [] lines in
      title ← extract_title doc;
      Ok {| title := title; outline := outline |}
  | _ => Raise ValueError
  end.

End Outline.

(** ** Sample documents *)

Definition span (t : string) (sz : Q) (fl : Z) (top bottom : Q) : Span :=
  {| span_text := Py.lit t; span_size := sz; span_flags := fl;
     span_bbox := (72, top, 300, bottom)%Q |}.

Definition page_of (lines : list Line) : Page :=
  {| rect_height := 800; blocks := [OtherBlock; TextBlock lines] |}.

Definition doc_sample : Doc :=
  {| metadata_title := Some (Py.lit "");
     pages :=
       [ page_of [ [span "Project Overview" 20 2 100 125];
                   [span "Some body text of the report" 10 0 200 212];
                   [span "Scope" 14 0 300 316];
                   [span "Confidential draft" 10 0 770 782] ];
         page_of [ [span "More body text" 10 0 200 212];
                   [span "Confidential draft" 10 0 770 782] ];
         page_of [ [span "Closing " 14 0 100 116; span "remarks" 14 0 100 116];
                   [span "Confidential draft" 10 0 770 782] ] ] |}.


(** The outline of [doc_sample]. *)
Definition doc_sample_outline : DocumentOutline :=
  {| title := Py.lit "Project Overview";
     outline :=
       [ {| entry_level := Py.lit "H1"; entry_text := Py.lit "Project Overview"; entry_page := 1 |};
         {| entry_level := Py.lit "H3"; entry_text := Py.lit "Some body text of the report"; entry_page := 1 |};
         {| entry_level := Py.lit "H2"; entry_text := Py.lit "Scope"; entry_page := 1 |};
         {| entry_level := Py.lit "H3"; entry_text := Py.lit "More body text"; entry_page := 2 |};
         {| entry_level := Py.lit "H2"; entry_text := Py.lit "Closing remarks"; entry_page := 3 |} ] |}.

(** The line "Scope" of [doc_sample]. *)
Definition feat_scope : LineFeature :=
  {| text := Py.lit "Scope"; size := 14; bold := false;
     y0 := 300; y1 := 316; page := 1 |}.

Definition doc_budget : Doc :=
  {| metadata_title := Some (Py.lit "Microsoft Word - Budget.docx");
     pages := [ page_of [ [span "Budget for the coming year" 10 0 200 212] ] ] |}.

(** No pages, a metadata title. *)
Definition doc_no_pages : Doc :=
  {| metadata_title := Some (Py.lit "Report"); pages := [] |}.

(** Two pages; the first carries the same text as header and as footer. *)
Definition doc_header_footer : Doc :=
  {| metadata_title := None;
     pages :=
       [ page_of [ [span "Draft" 10 0 20 32];
                   [span "Introduction" 16 2 200 220];
                   [span "Draft" 10 0 770 782] ];
         page_of [ [span "Some body text" 10 0 200 212] ] ] |}.

(** One page, whose heading stands in the top tenth of the page. *)
Definition doc_single_page : Doc :=
  {| metadata_title := None;
     pages :=
       [ page_of [ [span "Project Overview" 20 2 40 65];
                   [span "Some body text" 10 0 200 212] ] ] |}.

Definition doc_word_inside : Doc :=
  {| metadata_title := Some (Py.lit "Notes Microsoft Word - Plan");
     pages := [ page_of [ [span "Plan" 10 0 200 212] ] ] |}.

(** ** Notions used by the statements *)

(** The thresholds as the specification describes them: the three most
    frequent sizes, by decreasing size, padded with 0. *)
Definition three_most_frequent (font_sizes : list Q) : list Q :=
  let top := take 3 (most_common (Counter font_sizes)).*1 in
  take 3 (sorted_desc Qle_bool top ++ [0%Q; 0%Q; 0%Q]).

(** The number of lines with text [t] in a margin zone. *)
Definition occurrences (t : Py.str) (lines : list LineFeature)
    (page_height : Q) : nat :=
  length (List.filter (λ feat, bool_decide (text feat = t)
                               && in_margin feat page_height) lines).

(** The pages on which the text [t] has a line in a margin zone. *)
Definition margin_pages (t : Py.str) (lines : list LineFeature)
    (page_height : Q) : gset nat :=
  list_to_set (page <$> List.filter (λ feat, bool_decide (text feat = t)
                                            && in_margin feat page_height) lines).

(** [old] occurs in [s] at position [i]. *)
Definition occurs_at (old s : Py.str) (i : nat) : Prop :=
  take (length old) (drop i s) = old.

(** [r] is [s] with its occurrences of [old] deleted, from the left: the
    leftmost occurrence is cut out and the rest of the string is treated
    the same way. *)
Inductive RemovedAll (old : Py.str) : Py.str → Py.str → Prop :=
| removed_none s :
    (∀ i, ¬ occurs_at old s i) → RemovedAll old s s
| removed_leftmost x y r :
    (∀ i, i < length x → ¬ occurs_at old (x ++ old ++ y) i) →
    RemovedAll old y r →
    RemovedAll old (x ++ old ++ y) (x ++ r).

Definition num_pages_of (doc : Doc) : nat := length (pages doc) `min` MAX_PAGES.

Definition page_height_of (doc : Doc) : Q :=
  match pages doc with
  | pg :: _ => rect_height pg
  | [] => 0%Q
  end.

Section Notions.
Context `{U : Unicode}.

(** The lines collected from a document and its repeated-element set, as
    [extract_outline] computes them. *)
Definition lines_of (doc : Doc) : list LineFeature :=
  collect doc (num_pages_of doc).

Definition repeated_of (doc : Doc) : gset Py.str :=
  find_repeated_elements (lines_of doc) (num_pages_of doc) (page_height_of doc).

(** What one line contributes to the outline. *)
Definition heading_of (repeated : gset Py.str) (h1_size h2_size h3_size : Q)
    (feat : LineFeature) : option OutlineEntry :=
  if bool_decide (text feat ∈ repeated) || negb (is_valid_heading (text feat))
  then None
  else assign_level h1_size h2_size h3_size feat.

End Notions.

(** ** Batch driver *)

Definition INPUT_DIR : Py.str := Py.lit "/app/input".
Definition OUTPUT_DIR : Py.str := Py.lit "/app/output".

(** [os.path.join(dir, name)] for a directory that does not end with a
    separator: an absolute [name] replaces the directory. *)
Definition path_join (dir name : Py.str) : Py.str :=
  if Py.startswith name (Py.lit "/") then name
  else dir ++ Py.lit "/" ++ name.

(** The lines printed by the driver. *)
Inductive message :=
| Processed (filename output_path : Py.str)
| ErrorProcessing (filename : Py.str) (e : exn).

(** What [with open(output_path, 'w') as f: json.dump(...)] can do: write
    the whole document; fail to open the file, which leaves the file
    system as it was; or open the file, which creates or empties it, and
    fail while writing. *)
Inductive write_outcome :=
| WriteOk
| OpenRaised (cause : Py.str)
| DumpRaised (cause : Py.str).

(** An output file holds a whole JSON document, kept as the value dumped,
    or what a failed dump left of one. *)
Inductive file_content :=
| Dumped (outline_data : DocumentOutline)
| Partial.

(** What the driver changes: the output files, by path, and the standard
    output. *)
Record World := {
  written : gmap Py.str file_content;
  stdout : list message
}.

Section Driver.
Context `{U : Unicode}.

(** The outcome of [fitz.open] on each path, and of the write of each
    document to each path. *)
Variable fitz_open : Py.str → result Doc.
Variable write_json : Py.str → DocumentOutline → write_outcome.

Definition is_pdf (filename : Py.str) : bool :=
  Py.endswith (lower filename) (Py.lit ".pdf").

Definition output_path_of (filename : Py.str) : Py.str :=
  path_join OUTPUT_DIR (Py.drop_last 4 filename ++ Py.lit ".json").

(** The body of the loop of [process_pdfs] for one directory entry: the
    extraction and the write stand in the same [try]. *)
Definition process_file (w : World) (filename : Py.str) : World :=
  if is_pdf filename
  then
    let pdf_path := path_join INPUT_DIR filename in
    let output_path := output_path_of filename in
    match extract_outline (fitz_open pdf_path) with
    | Ok outline_data =>
        match write_json output_path outline_data with
        | WriteOk =>
            {| written := <[output_path := Dumped outline_data]> (written w);
               stdout := stdout w ++ [Processed filename output_path] |}
        | OpenRaised cause =>
            {| written := written w;
               stdout := stdout w
                         ++ [ErrorProcessing filename (WriteError cause)] |}
        | DumpRaised cause =>
            {| written := <[output_path := Partial]> (written w);
               stdout := stdout w
                         ++ [ErrorProcessing filename (WriteError cause)] |}
        end
    | Raise e =>
        {| written := written w;
           stdout := stdout w ++ [ErrorProcessing filename e] |}
    end
  else w.

(** The directory entries whose output file is created or overwritten:
    those that end in ".pdf", whose extraction succeeds and whose output
    file opens. *)
Definition touches (filename : Py.str) : bool :=
  is_pdf filename
  && match extract_outline (fitz_open (path_join INPUT_DIR filename)) with
     | Ok outline_data =>
         match write_json (output_path_of filename) outline_data with
         | OpenRaised _ => false
         | _ => true
         end
     | Raise _ => false
     end.

(** [process_pdfs()], given the listing of the input directory. *)
Definition process_pdfs (listing : list Py.str) (w : World) : World :=
  foldl process_file w listing.

End Driver.

(** ** Further notions used by the statements *)

(** The document cut down to the pages the extractor reads. *)
Definition first_pages (doc : Doc) : Doc :=
  {| metadata_title := metadata_title doc;
     pages := take MAX_PAGES (pages doc) |}.

(** The spans the first fallback of the title extractor considers. *)
Definition is_title_candidate (s : Span) : bool :=
  negb (bool_decide (Py.strip (span_text s) = []))
  && Qle_bool 15 (span_size s) && flag2 s.

(** A file system in which every path opens as [doc_sample], except
    ["/app/input/broken.pdf"], which does not open. *)
Definition sample_open (path : Py.str) : result Doc :=
  if bool_decide (path = Py.lit "/app/input/broken.pdf")
  then Raise (OpenError (Py.lit "cannot open broken document"))
  else Ok doc_sample.

(** Every document can be written, except to
    ["/app/output/locked.json"], which does not open. *)
Definition sample_write (path : Py.str) (outline_data : DocumentOutline)
    : write_outcome :=
  if bool_decide (path = Py.lit "/app/output/locked.json")
  then OpenRaised (Py.lit "permission denied")
  else WriteOk.

Definition empty_world : World := {| written := ∅; stdout := [] |}.

(** A page whose spans hold white space only. *)
Definition doc_blank : Doc :=
  {| metadata_title := None;
     pages := [ page_of [ [span "  " 10 0 100 112]; [span " " 12 0 200 212] ] ] |}.

(** * Properties *)

(** ** Running the model *)

Example strip_ex : Py.strip (Py.lit "  a b  ") = Py.lit "a b".
Proof. reflexivity. Qed.

Example split_ex :
  Py.split (Py.lit " ab  c d ") = [Py.lit "ab"; Py.lit "c"; Py.lit "d"].
Proof. reflexivity. Qed.

Example remove_all_ex :
  Py.remove_all (Py.lit "ab") (Py.lit "abxabab-aab") = Py.lit "x-a".
Proof. reflexivity. Qed.

Example drop_last_ex : Py.drop_last 4 (Py.lit "Budget.docx") = Py.lit "Budget.".
Proof. reflexivity. Qed.

Example valid_ex1 :
  @is_valid_heading ascii_tables (Py.lit "Project Overview") = true.
Proof. vm_compute. reflexivity. Qed.

Example valid_ex2 : @is_valid_heading ascii_tables (Py.lit "3.1.") = false.
Proof. vm_compute. reflexivity. Qed.

Example valid_ex3 : @is_valid_heading ascii_tables (Py.lit "Name Date") = false.
Proof. vm_compute. reflexivity. Qed.

Example has_cjk_ex : has_cjk [0x6f22; 0x5b57]%N = true ∧ has_cjk (Py.lit "abc") = false.
Proof. split; reflexivity. Qed.

Example extract_title_budget_run : extract_title doc_budget = Ok (Py.lit "Budget.").
Proof. vm_compute. reflexivity. Qed.

Example heading_levels_ex :
  get_heading_levels [10; 10; 12; 10; 16; 12]%Q = [16; 12; 10]%Q.
Proof. vm_compute. reflexivity. Qed.

Example extract_outline_sample_run :
  @extract_outline ascii_tables (Ok doc_sample) = Ok doc_sample_outline.
Proof. vm_compute. reflexivity. Qed.

(** ** Floats *)

Example fmul_842_0_9 :
  (fmul 842 float_0_9 == 6665679292229223 # 8796093022208)%Q
  ∧ (fmul 842 float_0_1 == 5925048259759309 # 70368744177664)%Q
  ∧ (fmul 800 float_0_1 == 80)%Q
  ∧ (fmul 800 float_0_9 == 720)%Q
  ∧ (fmul (4876501 # 8192) float_0_9 == 2356246385315021 # 4398046511104)%Q
  ∧ (fmul (- (7 # 2)) float_0_9 == - (7093169413108531 # 2251799813685248))%Q
  ∧ (fmul 0 float_0_1 == 0)%Q
  ∧ (fmul (1 # 2 ^ 1074) float_0_9 == 1 # 2 ^ 1074)%Q
  ∧ (fmul (1 # 2 ^ 1074) float_0_1 == 0)%Q.
Proof. vm_compute. repeat split; reflexivity. Qed.

(** At the edge of the bottom zone the rounded product decides: on a page
    of height 842 the product with 0.9 is 757.8000000000001, and a line
    that ends there is not in the zone. *)
Example in_margin_at_the_edge :
  in_margin {| text := Py.lit "Footer"; size := 10; bold := false;
               y0 := 700; y1 := 6665679292229223 # 8796093022208;
               page := 1 |} 842 = false.
Proof. vm_compute. reflexivity. Qed.

Lemma Qlt_bool_iff x y : Qlt_bool x y = true ↔ (x < y)%Q.
Proof.
  unfold Qlt_bool. rewrite negb_true_iff, <- not_true_iff_false, Qle_bool_iff.
  split; [apply Qnot_le_lt | apply Qlt_not_le].
Qed.

(** ** Heading levels *)

Lemma get_heading_levels_length font_sizes :
  length (get_heading_levels font_sizes) = 3.
Proof.
  unfold get_heading_levels. rewrite length_take, length_app.
  change (length [0%Q; 0%Q; 0%Q]) with 3. lia.
Qed.

(** C1, on the code.  With sizes 10 (four lines), 12 (three lines), 14
    (two lines) and 16 (one line), the three most frequent sizes are 10,
    12 and 14, so the thresholds of the claim are (14, 12, 10); the code
    returns (16, 14, 12), the three largest sizes: it sorts every distinct
    size by magnitude before it keeps three, so the frequency ranking it
    computed is lost. *)
Theorem get_heading_levels_ignores_frequency :
  let sizes := [10; 10; 12; 10; 14; 12; 16; 10; 12; 14]%Q in
  (most_common (Counter sizes)).*1 = [10; 12; 14; 16]%Q
  ∧ three_most_frequent sizes = [14; 12; 10]%Q
  ∧ get_heading_levels sizes = [16; 14; 12]%Q
  ∧ get_heading_levels sizes ≠ three_most_frequent sizes.
Proof. vm_compute. repeat split; try reflexivity. discriminate. Qed.

Lemma elem_of_insert_desc {A} (le : A → A → bool) x y (l : list A) :
  y ∈ insert_desc le x l ↔ y = x ∨ y ∈ l.
Proof.
  induction l as [|z l IH]; simpl.
  - rewrite list_elem_of_singleton. split; [by left|].
    intros [? | H]; [done | by apply elem_of_nil in H].
  - destruct (le z x); rewrite !elem_of_cons; [done|]. rewrite IH. tauto.
Qed.

Lemma elem_of_sorted_desc {A} (le : A → A → bool) y (l : list A) :
  y ∈ sorted_desc le l ↔ y ∈ l.
Proof.
  induction l as [|x l IH]; simpl; [done|].
  by rewrite elem_of_insert_desc, elem_of_cons, IH.
Qed.

(** The first element of a list sorted by decreasing size is the largest
    of the list. *)
Lemma sorted_desc_head (l : list Q) y :
  y ∈ l → ∃ h t, sorted_desc Qle_bool l = h :: t ∧ (y <= h)%Q.
Proof.
  revert y. induction l as [|x l IH]; intros y Hy; [by apply elem_of_nil in Hy|].
  simpl. destruct (sorted_desc Qle_bool l) as [|h t] eqn:Hs.
  - exists x, []. split; [done|].
    apply elem_of_cons in Hy as [-> | Hy]; [apply Qle_refl|].
    destruct (IH y Hy) as (? & ? & ? & _). discriminate.
  - simpl. destruct (Qle_bool h x) eqn:Hhx.
    + exists x, (h :: t). split; [done|]. apply Qle_bool_iff in Hhx.
      apply elem_of_cons in Hy as [-> | Hy]; [apply Qle_refl|].
      destruct (IH y Hy) as (h' & t' & [= <- <-] & Hle). by eapply Qle_trans.
    + exists h, (insert_desc Qle_bool x t). split; [done|].
      apply elem_of_cons in Hy as [-> | Hy].
      * apply Qlt_le_weak, Qlt_bool_iff. unfold Qlt_bool. by rewrite Hhx.
      * by destruct (IH y Hy) as (h' & t' & [= <- <-] & Hle).
Qed.

Lemma counter_add_keeps x (c : list (Q * nat)) k n :
  (k, n) ∈ c → ∃ n', (k, n') ∈ counter_add x c.
Proof.
  induction c as [|[k0 n0] c IH]; intros Hin; [by apply elem_of_nil in Hin|].
  simpl. apply elem_of_cons in Hin as [[= <- <-] | Hin].
  - destruct (Qeq_bool k x); eexists; apply list_elem_of_here.
  - destruct (Qeq_bool k0 x).
    + exists n. by apply list_elem_of_further.
    + destruct (IH Hin) as [n' Hn']. exists n'. by apply list_elem_of_further.
Qed.

Lemma counter_add_adds x (c : list (Q * nat)) :
  ∃ k n, (k, n) ∈ counter_add x c ∧ (k == x)%Q.
Proof.
  induction c as [|[k0 n0] c IH]; simpl.
  - exists x, 1. split; [apply list_elem_of_here | reflexivity].
  - destruct (Qeq_bool k0 x) eqn:Hk.
    + exists k0, (S n0). split; [apply list_elem_of_here | by apply Qeq_bool_iff].
    + destruct IH as (k & n & Hin & Hk'). exists k, n.
      split; [by apply list_elem_of_further | done].
Qed.

Lemma Counter_keys (l : list Q) x :
  x ∈ l → ∃ k n, (k, n) ∈ Counter l ∧ (k == x)%Q.
Proof.
  unfold Counter.
  assert (∀ (c : list (Q * nat)),
            (x ∈ l ∨ ∃ k n, (k, n) ∈ c ∧ (k == x)%Q) →
            ∃ k n, (k, n) ∈ foldl (λ c x, counter_add x c) c l ∧ (k == x)%Q)
    as Hgen.
  { induction l as [|a l IH]; intros c [Hin | Hc]; simpl.
    - by apply elem_of_nil in Hin.
    - exact Hc.
    - apply IH. apply elem_of_cons in Hin as [-> | Hin]; [right | by left].
      apply counter_add_adds.
    - apply IH. right. destruct Hc as (k & n & Hin & Hk).
      destruct (counter_add_keeps a c k n Hin) as [n' Hn']. by exists k, n'. }
  intros Hin. apply Hgen. by left.
Qed.

(** Whatever the frequencies, the H1 threshold is at least every size of
    the document. *)
Lemma get_heading_levels_head_max (font_sizes : list Q) x :
  x ∈ font_sizes →
  ∃ h1 rest, get_heading_levels font_sizes = h1 :: rest ∧ (x <= h1)%Q.
Proof.
  intros (k & n & Hin & Hk)%Counter_keys.
  assert (k ∈ (most_common (Counter font_sizes)).*1) as Hk'.
  { apply list_elem_of_fmap. exists (k, n). split; [done|].
    by apply elem_of_sorted_desc. }
  destruct (sorted_desc_head _ _ Hk') as (h & t & Hs & Hle).
  unfold get_heading_levels. rewrite Hs. simpl.
  exists h, (take 2 (t ++ [0%Q; 0%Q; 0%Q])). split; [done|].
  by rewrite <- Hk.
Qed.

(** ** Title *)

(** C2, on the code.  For the metadata title "Microsoft Word -
    Budget.docx" the extractor returns "Budget." with the dot of the
    suffix left in place: the slice [title[:-4]] drops four characters
    where ".docx" has five. *)
Theorem extract_title_budget :
  extract_title doc_budget = Ok (Py.lit "Budget.")
  ∧ extract_title doc_budget ≠ Ok (Py.lit "Budget")
  ∧ title <$> @extract_outline ascii_tables (Ok doc_budget) = Ok (Py.lit "Budget.").
Proof. vm_compute. repeat split; try reflexivity. discriminate. Qed.

(** ** Repeated elements *)

Section Repeated.
Variable page_height : Q.

Lemma occurrences_cons (t : Py.str) feat (lines : list LineFeature) :
  occurrences t (feat :: lines) page_height =
  (if bool_decide (text feat = t) && in_margin feat page_height then 1 else 0)
  + occurrences t lines page_height.
Proof.
  unfold occurrences. simpl.
  destruct (bool_decide (text feat = t) && in_margin feat page_height); reflexivity.
Qed.

Lemma count_step_lookup (counter : gmap Py.str nat) feat t :
  default 0 (count_step page_height counter feat !! t) =
  default 0 (counter !! t)
  + (if bool_decide (text feat = t) && in_margin feat page_height then 1 else 0).
Proof.
  unfold count_step.
  destruct (in_margin feat page_height); rewrite ?andb_true_r, ?andb_false_r.
  - case_bool_decide as Ht.
    + subst t. rewrite lookup_insert_eq. reflexivity.
    + rewrite lookup_insert_ne by done. lia.
  - lia.
Qed.

(** The counter holds, for each text, the number of its margin lines. *)
Lemma counter_lookup (lines : list LineFeature) (counter : gmap Py.str nat) t :
  default 0 (foldl (count_step page_height) counter lines !! t) =
  default 0 (counter !! t) + occurrences t lines page_height.
Proof.
  revert counter. induction lines as [|feat lines IH]; intros counter.
  - unfold occurrences. simpl. lia.
  - simpl. rewrite IH, count_step_lookup, occurrences_cons. lia.
Qed.

Lemma elem_of_repeated (lines : list LineFeature) (num_pages : nat) (t : Py.str) :
  t ∈ find_repeated_elements lines num_pages page_height
  ↔ num_pages / 2 < occurrences t lines page_height.
Proof.
  unfold find_repeated_elements.
  rewrite elem_of_dom. unfold is_Some.
  pose proof (counter_lookup lines ∅ t) as Hc.
  rewrite lookup_empty in Hc. simpl in Hc. rewrite <- Hc.
  split.
  - intros [c Hf]. apply map_lookup_filter_Some in Hf as [Hl Hlt].
    rewrite Hl. exact Hlt.
  - intros Hlt.
    destruct (foldl (count_step page_height) ∅ lines !! t) as [c|] eqn:Hl.
    + exists c. apply map_lookup_filter_Some. split; [exact Hl | exact Hlt].
    + simpl in Hlt. lia.
Qed.

End Repeated.

(** C3, on the code.  In [doc_header_footer], a document of two pages,
    "Draft" is header and footer of page one and absent from page two:
    its margin lines stand on one page, which is not more than [2 // 2],
    and the code puts it in the repeated-element set all the same, since
    it counts lines where pages are meant. *)
Theorem repeated_not_by_pages :
  let doc := doc_header_footer in
  let t := Py.lit "Draft" in
  let on_pages := margin_pages t (@lines_of ascii_tables doc) (page_height_of doc) in
  num_pages_of doc = 2
  ∧ base.size on_pages = 1
  ∧ ¬ (num_pages_of doc / 2 < base.size on_pages)
  ∧ t ∈ @repeated_of ascii_tables doc.
Proof.
  split; [reflexivity|]. split; [vm_compute; reflexivity|].
  split; [vm_compute; lia|].
  apply elem_of_repeated. vm_compute. lia.
Qed.

(** With at most one page the threshold is 0: the repeated-element set
    holds every text that has a line in a margin zone. *)
Lemma repeated_single_page (lines : list LineFeature) (num_pages : nat)
    (page_height : Q) (t : Py.str) :
  num_pages ≤ 1 →
  t ∈ find_repeated_elements lines num_pages page_height
  ↔ ∃ feat, feat ∈ lines ∧ text feat = t ∧ in_margin feat page_height = true.
Proof.
  intros Hn. rewrite elem_of_repeated.
  replace (num_pages / 2) with 0
    by (destruct num_pages as [|[|?]]; [reflexivity | reflexivity | lia]).
  unfold occurrences. split.
  - intros Hlt.
    destruct (List.filter _ lines) as [|feat l] eqn:Hf; [simpl in Hlt; lia|].
    assert (In feat (List.filter (λ feat, bool_decide (text feat = t)
                     && in_margin feat page_height) lines)) as Hin
      by (rewrite Hf; left; reflexivity).
    apply filter_In in Hin as [Hin Hb]. apply andb_true_iff in Hb as [Ht Hm].
    exists feat. rewrite list_elem_of_In. apply bool_decide_eq_true in Ht. done.
  - intros (feat & Hin & Ht & Hm).
    assert (In feat (List.filter (λ feat, bool_decide (text feat = t)
                     && in_margin feat page_height) lines)) as Hin'.
    { apply filter_In. split; [by apply list_elem_of_In|].
      rewrite Hm, andb_true_r. by apply bool_decide_eq_true. }
    destruct (List.filter _ lines); [destruct Hin' | simpl; lia].
Qed.

(** C5, on the code.  [doc_single_page] has one page and its
    repeated-element set is not empty: the threshold [1 // 2] is 0, so the
    heading printed once in the top tenth of the page counts as repeated,
    and the outline lacks it. *)
Theorem repeated_single_page_nonempty :
  let doc := doc_single_page in
  num_pages_of doc = 1
  ∧ @repeated_of ascii_tables doc ≠ ∅
  ∧ outline <$> @extract_outline ascii_tables (Ok doc) =
    Ok [ {| entry_level := Py.lit "H2"; entry_text := Py.lit "Some body text";
            entry_page := 1 |} ].
Proof.
  split; [reflexivity|]. split; [|vm_compute; reflexivity].
  intros He.
  assert (Py.lit "Project Overview" ∈ @repeated_of ascii_tables doc_single_page) as Hin
    by (apply elem_of_repeated; vm_compute; lia).
  rewrite He in Hin. by apply not_elem_of_empty in Hin.
Qed.

(** ** Collected lines *)

Section OutlineFacts.
Context `{U : Unicode}.

Lemma collect_line_page i line feat :
  collect_line i line = Some feat → page feat = i + 1.
Proof.
  unfold collect_line. intros H.
  destruct (_ || _); [discriminate|].
  destruct line; [discriminate|]. by inversion H.
Qed.

Lemma collect_page_page i pg feat :
  feat ∈ collect_page i pg → page feat = i + 1.
Proof.
  unfold collect_page. rewrite list_elem_of_In, in_flat_map.
  intros (block & _ & Hin). destruct block as [lines|]; [|destruct Hin].
  apply list_elem_of_In, list_elem_of_omap in Hin as (line & _ & Hl).
  by eapply collect_line_page.
Qed.

(** Every collected line carries a page number between 1 and the number
    of pages read. *)
Lemma collect_page_range doc num_pages feat :
  feat ∈ collect doc num_pages →
  1 ≤ page feat ≤ num_pages `min` length (pages doc).
Proof.
  unfold collect. rewrite list_elem_of_In, in_concat.
  intros (l & Hl%list_elem_of_In & Hfeat%list_elem_of_In).
  apply elem_of_lookup_imap in Hl as (i & pg & -> & Hi).
  apply collect_page_page in Hfeat.
  apply lookup_lt_Some in Hi. rewrite length_take in Hi. lia.
Qed.

(** ** The heading loop *)

Lemma heading_step_heading_of repeated h1 h2 h3 acc feat :
  heading_step repeated h1 h2 h3 acc feat =
  acc ++ option_list (heading_of repeated h1 h2 h3 feat).
Proof.
  unfold heading_step, heading_of.
  destruct (_ || _); [by rewrite app_nil_r|].
  destruct (assign_level h1 h2 h3 feat); [done | by rewrite app_nil_r].
Qed.

(** The loop appends, line after line, what each line contributes. *)
Lemma foldl_heading_step repeated h1 h2 h3 lines acc :
  foldl (heading_step repeated h1 h2 h3) acc lines =
  acc ++ omap (heading_of repeated h1 h2 h3) lines.
Proof.
  revert acc. induction lines as [|feat lines IH]; intros acc; simpl.
  - by rewrite app_nil_r.
  - rewrite IH, heading_step_heading_of, <- app_assoc. f_equal.
    by destruct (heading_of repeated h1 h2 h3 feat).
Qed.

Lemma page_height_computed doc :
  (if 0 <? length (pages doc) `min` MAX_PAGES
   then pg ← getitem doc 0; Ok (rect_height pg)
   else Ok 0%Q) = Ok (page_height_of doc).
Proof.
  unfold getitem, page_height_of. destruct (pages doc) as [|pg ps]; reflexivity.
Qed.

(** What a successful run of [extract_outline] has computed. *)
Lemma extract_outline_Ok opened out :
  extract_outline opened = Ok out →
  ∃ doc h1 h2 h3,
    opened = Ok doc
    ∧ get_heading_levels (size <$> lines_of doc) = [h1; h2; h3]
    ∧ outline out = omap (heading_of (repeated_of doc) h1 h2 h3) (lines_of doc)
    ∧ extract_title doc = Ok (title out).
Proof.
  unfold extract_outline. destruct opened as [doc|e]; [|discriminate].
  cbn [mbind result_bind]. rewrite page_height_computed.
  fold (num_pages_of doc). fold (lines_of doc). fold (repeated_of doc).
  destruct (get_heading_levels (size <$> lines_of doc))
    as [|h1 [|h2 [|h3 [|]]]] eqn:Hl; try discriminate.
  destruct (extract_title doc) as [t|] eqn:Ht; [|discriminate].
  intros [= <-]. exists doc, h1, h2, h3. simpl.
  by rewrite foldl_heading_step.
Qed.

Lemma elem_of_outline opened out e :
  extract_outline opened = Ok out → e ∈ outline out →
  ∃ doc h1 h2 h3 feat,
    opened = Ok doc ∧ feat ∈ lines_of doc
    ∧ heading_of (repeated_of doc) h1 h2 h3 feat = Some e.
Proof.
  intros (doc & h1 & h2 & h3 & -> & _ & Ho & _)%extract_outline_Ok He.
  rewrite Ho in He. apply list_elem_of_omap in He as (feat & Hfeat & Hh).
  by exists doc, h1, h2, h3, feat.
Qed.

Lemma assign_level_entry h1 h2 h3 feat e :
  assign_level h1 h2 h3 feat = Some e →
  entry_text e = text feat ∧ entry_page e = page feat
  ∧ entry_level e ∈ [Py.lit "H1"; Py.lit "H2"; Py.lit "H3"].
Proof.
  unfold assign_level.
  repeat match goal with |- context [if ?b then _ else _] => destruct b end;
    intros [= <-]; (split; [done|]); (split; [done|]); simpl; set_solver.
Qed.

End OutlineFacts.

(** ** The outline *)

(** C6.  Every entry of the outline of a document has a text that passes
    the validity filter and is not in the repeated-element set of the
    document. *)
Theorem outline_entries_filtered `{U : Unicode} (doc : Doc)
    (out : DocumentOutline) (e : OutlineEntry) :
  extract_outline (Ok doc) = Ok out →
  e ∈ outline out →
  is_valid_heading (entry_text e) = true ∧ entry_text e ∉ repeated_of doc.
Proof.
  intros Hrun He.
  destruct (elem_of_outline _ _ _ Hrun He)
    as (doc' & h1 & h2 & h3 & feat & [= <-] & _ & Hh).
  unfold heading_of in Hh.
  destruct (bool_decide (text feat ∈ repeated_of doc)) eqn:Hrep;
    [discriminate|].
  destruct (is_valid_heading (text feat)) eqn:Hvalid; [|discriminate].
  simpl in Hh. apply assign_level_entry in Hh as (-> & _ & _).
  split; [exact Hvalid|]. by apply bool_decide_eq_false in Hrep.
Qed.

Lemma outline_entries_filtered_witness :
  let e := {| entry_level := Py.lit "H2"; entry_text := Py.lit "Scope";
              entry_page := 1 |} in
  @is_valid_heading ascii_tables (entry_text e) = true
  ∧ entry_text e ∉ @repeated_of ascii_tables doc_sample.
Proof.
  intros e.
  apply (@outline_entries_filtered ascii_tables doc_sample doc_sample_outline e).
  - vm_compute. reflexivity.
  - do 2 apply list_elem_of_further. apply list_elem_of_here.
Defined.

(** C7.  Every entry of the outline has one of the levels H1, H2, H3 and
    a page number between 1 and the number of pages of the document, 50 at
    most. *)
Theorem outline_levels_and_pages `{U : Unicode} (doc : Doc)
    (out : DocumentOutline) (e : OutlineEntry) :
  extract_outline (Ok doc) = Ok out →
  e ∈ outline out →
  entry_level e ∈ [Py.lit "H1"; Py.lit "H2"; Py.lit "H3"]
  ∧ 1 ≤ entry_page e ≤ length (pages doc) `min` 50.
Proof.
  intros Hrun He.
  destruct (elem_of_outline _ _ _ Hrun He)
    as (doc' & h1 & h2 & h3 & feat & [= <-] & Hfeat & Hh).
  unfold heading_of in Hh. destruct (_ || _); [discriminate|].
  apply assign_level_entry in Hh as (_ & -> & Hlevel).
  split; [exact Hlevel|].
  apply collect_page_range in Hfeat. unfold num_pages_of, MAX_PAGES in Hfeat.
  lia.
Qed.

Lemma outline_levels_and_pages_witness :
  let e := {| entry_level := Py.lit "H2"; entry_text := Py.lit "Closing remarks";
              entry_page := 3 |} in
  entry_level e ∈ [Py.lit "H1"; Py.lit "H2"; Py.lit "H3"]
  ∧ 1 ≤ entry_page e ≤ length (pages doc_sample) `min` 50.
Proof.
  intros e.
  apply (@outline_levels_and_pages ascii_tables doc_sample doc_sample_outline e).
  - vm_compute. reflexivity.
  - do 4 apply list_elem_of_further. apply list_elem_of_here.
Defined.

(** ** Level assignment *)

Lemma app_single_inj {A} (acc : list A) x y : acc ++ [x] = acc ++ [y] → x = y.
Proof. intros H. apply app_inv_head in H. by inversion H. Qed.

Lemma app_single_ne {A} (acc : list A) x : acc ++ [x] ≠ acc.
Proof.
  intros H. apply (f_equal length) in H. rewrite length_app in H. simpl in H. lia.
Qed.

Lemma entry_level_inj l1 l2 feat :
  entry l1 feat = entry l2 feat → Py.lit l1 = Py.lit l2.
Proof. by intros [= H]. Qed.

(** C9.  For a line that passes the repetition and validity filters, the
    heading loop appends one H1 entry exactly when the size is the H1 size
    and the line is bold or free of CJK characters; failing that, one H2
    entry exactly when the size is the H2 size; failing both, one H3 entry
    exactly when the size is the H3 size; and nothing otherwise.  In every
    case at most one entry is appended. *)
Theorem level_assignment `{U : Unicode} (repeated : gset Py.str)
    (h1_size h2_size h3_size : Q) (acc : list OutlineEntry) (feat : LineFeature) :
  text feat ∉ repeated →
  is_valid_heading (text feat) = true →
  let is_h1 := (size feat == h1_size)%Q
               ∧ (bold feat = true ∨ has_cjk (text feat) = false) in
  let is_h2 := (size feat == h2_size)%Q in
  let is_h3 := (size feat == h3_size)%Q in
  let next := heading_step repeated h1_size h2_size h3_size acc feat in
  (is_h1 ↔ next = acc ++ [entry "H1" feat])
  ∧ (¬ is_h1 ∧ is_h2 ↔ next = acc ++ [entry "H2" feat])
  ∧ (¬ is_h1 ∧ ¬ is_h2 ∧ is_h3 ↔ next = acc ++ [entry "H3" feat])
  ∧ (¬ is_h1 ∧ ¬ is_h2 ∧ ¬ is_h3 ↔ next = acc)
  ∧ length next ≤ length acc + 1.
Proof.
  intros Hrep Hvalid is_h1 is_h2 is_h3 next.
  assert (next = acc ++ option_list (assign_level h1_size h2_size h3_size feat))
    as Hnext.
  { subst next. rewrite heading_step_heading_of. unfold heading_of.
    rewrite Hvalid. by rewrite bool_decide_eq_false_2. }
  assert (Qeq_bool (size feat) h1_size
          && (bold feat || negb (has_cjk (text feat))) = true ↔ is_h1) as R1.
  { unfold is_h1.
    by rewrite andb_true_iff, orb_true_iff, negb_true_iff, Qeq_bool_iff. }
  assert (Qeq_bool (size feat) h2_size = true ↔ is_h2) as R2
    by apply Qeq_bool_iff.
  assert (Qeq_bool (size feat) h3_size = true ↔ is_h3) as R3
    by apply Qeq_bool_iff.
  assert (acc ++ [entry "H1" feat] ≠ acc ++ [entry "H2" feat]) as D12
    by (by intros ?%app_single_inj%entry_level_inj).
  assert (acc ++ [entry "H1" feat] ≠ acc ++ [entry "H3" feat]) as D13
    by (by intros ?%app_single_inj%entry_level_inj).
  assert (acc ++ [entry "H2" feat] ≠ acc ++ [entry "H3" feat]) as D23
    by (by intros ?%app_single_inj%entry_level_inj).
  pose proof (app_single_ne acc (entry "H1" feat)) as D1.
  pose proof (app_single_ne acc (entry "H2" feat)) as D2.
  pose proof (app_single_ne acc (entry "H3" feat)) as D3.
  assert (length next ≤ length acc + 1) as Hlen.
  { rewrite Hnext, length_app.
    destruct (assign_level h1_size h2_size h3_size feat); simpl; lia. }
  split_and!; try exact Hlen; clear Hlen;
    rewrite Hnext; unfold assign_level; clear Hnext; clearbody is_h1 is_h2 is_h3;
    destruct (Qeq_bool (size feat) h1_size
              && (bold feat || negb (has_cjk (text feat))));
    destruct (Qeq_bool (size feat) h2_size);
    destruct (Qeq_bool (size feat) h3_size);
    simpl; rewrite ?app_nil_r; intuition congruence.
Qed.

Lemma level_assignment_witness :
  let is_h1 := (size feat_scope == 20)%Q
               ∧ (bold feat_scope = true ∨ has_cjk (text feat_scope) = false) in
  let is_h2 := (size feat_scope == 14)%Q in
  let is_h3 := (size feat_scope == 10)%Q in
  let next := @heading_step ascii_tables ∅ 20 14 10 [] feat_scope in
  (is_h1 ↔ next = [] ++ [entry "H1" feat_scope])
  ∧ (¬ is_h1 ∧ is_h2 ↔ next = [] ++ [entry "H2" feat_scope])
  ∧ (¬ is_h1 ∧ ¬ is_h2 ∧ is_h3 ↔ next = [] ++ [entry "H3" feat_scope])
  ∧ (¬ is_h1 ∧ ¬ is_h2 ∧ ¬ is_h3 ↔ next = [])
  ∧ length next ≤ length (@nil OutlineEntry) + 1.
Proof.
  apply (@level_assignment ascii_tables ∅ 20 14 10 [] feat_scope).
  - apply not_elem_of_empty.
  - vm_compute. reflexivity.
Defined.

(** ** Documents without pages *)

(** C4, as stated, fails.  [doc_no_pages] has no page and a metadata
    title: the call returns an outline, with that title and no entry. *)
Lemma extract_outline_no_pages_returns :
  pages doc_no_pages = []
  ∧ @extract_outline ascii_tables (Ok doc_no_pages) =
    Ok {| title := Py.lit "Report"; outline := [] |}.
Proof. split; [reflexivity | vm_compute; reflexivity]. Qed.

(** C4, as the code has it.  A document that cannot be opened makes the
    call fail with the error of the opening.  A document without pages
    makes it fail, with the error of [doc[0]], when the metadata hold no
    title or a blank one; when they hold a title the call returns that
    title, cleaned, and an empty outline. *)
Theorem extract_outline_no_pages `{U : Unicode} (doc : Doc) (cause : exn) :
  pages doc = [] →
  extract_outline (Raise cause) = Raise cause
  ∧ extract_outline (Ok doc) =
    if usable_meta (metadata_title doc)
    then Ok {| title := clean_suffix (clean_prefix
                          (Py.strip (default [] (metadata_title doc))));
               outline := [] |}
    else Raise IndexError.
Proof.
  intros Hpages. split; [reflexivity|].
  unfold extract_outline. cbn [mbind result_bind].
  rewrite page_height_computed. unfold collect, extract_title, getitem.
  rewrite Hpages. simpl. destruct (usable_meta (metadata_title doc)); reflexivity.
Qed.

Lemma extract_outline_no_pages_witness :
  @extract_outline ascii_tables (Raise (OpenError (Py.lit "cannot open broken document")))
  = Raise (OpenError (Py.lit "cannot open broken document"))
  ∧ @extract_outline ascii_tables (Ok doc_no_pages) =
    if usable_meta (metadata_title doc_no_pages)
    then Ok {| title := clean_suffix (clean_prefix
                          (Py.strip (default [] (metadata_title doc_no_pages))));
               outline := [] |}
    else Raise IndexError.
Proof.
  apply (@extract_outline_no_pages ascii_tables doc_no_pages). reflexivity.
Defined.

(** ** Strings *)

Lemma startswith_spec (s p : Py.str) :
  Py.startswith s p = true ↔ ∃ y, s = p ++ y.
Proof.
  revert s. induction p as [|a p IH]; intros [|c s]; simpl.
  - split; [by exists [] | done].
  - split; [by exists (c :: s) | done].
  - split; [discriminate | by intros [y Hy]].
  - idtac.
    + rewrite andb_true_iff, N.eqb_eq, IH. split.
      * intros [-> [y ->]]. eauto.
      * intros [y [= -> ->]]. eauto.
Qed.

Lemma startswith_length (s p : Py.str) :
  Py.startswith s p = true → length p ≤ length s.
Proof.
  intros [y ->]%startswith_spec. rewrite length_app. lia.
Qed.

Lemma endswith_length (s p : Py.str) :
  Py.endswith s p = true → length p ≤ length s.
Proof.
  unfold Py.endswith. intros H%startswith_length.
  by rewrite !length_rev in H.
Qed.

(** A stripped string does not end with a whitespace character. *)
Lemma rstrip_last (s : Py.str) c :
  last (Py.rstrip s) = Some c → Py.isspace c = false.
Proof.
  induction s as [|a s IH]; simpl; [discriminate|].
  destruct (Py.rstrip s) as [|b r] eqn:E.
  - destruct (Py.isspace a) eqn:Ha; simpl; [discriminate|].
    by intros [= <-].
  - rewrite last_cons_cons. exact IH.
Qed.

Lemma strip_last (s : Py.str) c :
  last (Py.strip s) = Some c → Py.isspace c = false.
Proof. apply rstrip_last. Qed.

Lemma remove_go_cons (old : Py.str) k c (s : Py.str) :
  Py.remove_go old k (c :: s) =
  match k with
  | S k => Py.remove_go old k s
  | O => if Py.startswith (c :: s) old
         then Py.remove_go old (length old - 1) s
         else c :: Py.remove_go old 0 s
  end.
Proof. reflexivity. Qed.

(** Deleting the occurrences of a string that ends with a whitespace
    character from a string that does not leaves the last character in
    place. *)
Lemma remove_go_nonempty (old : Py.str) sp :
  last old = Some sp → Py.isspace sp = true →
  ∀ (s : Py.str) (k : nat),
    (∃ c, last s = Some c ∧ Py.isspace c = false) →
    (∀ k', k = S k' → ∃ c, s !! k' = Some c ∧ Py.isspace c = true) →
    Py.remove_go old k s ≠ [].
Proof.
  intros Hold Hsp. induction s as [|c s IH]; intros k (c0 & Hl & Hc0) Hk.
  - discriminate.
  - rewrite remove_go_cons. destruct k as [|k].
    + destruct (Py.startswith (c :: s) old) eqn:Hsw; [|done].
      apply startswith_spec in Hsw as [y Hy].
      destruct old as [|a old']; [discriminate|].
      injection Hy as -> ->. simpl. rewrite Nat.sub_0_r.
      destruct old' as [|b old''].
      * simpl in *. injection Hold as ->.
        apply IH; [|discriminate].
        exists c0. split; [|done].
        destruct y; [simpl in Hl; congruence|]. by rewrite last_cons_cons in Hl.
      * rewrite last_cons_cons in Hold. apply IH.
        -- exists c0. split; [|done]. cbn [app] in Hl.
           by rewrite last_cons_cons in Hl.
        -- intros k' [= <-]. exists sp. split; [|done].
           rewrite last_lookup in Hold. simpl in Hold.
           by apply (lookup_app_l_Some (b :: old'') y).
    + destruct (Hk k eq_refl) as (c1 & Hc1 & Hs1).
      apply IH.
      * exists c0. split; [|done].
        destruct s as [|b s].
        -- destruct k; simpl in Hc1; [|done]. simpl in Hl. congruence.
        -- by rewrite last_cons_cons in Hl.
      * intros k' ->. exists c1. split; [|done]. exact Hc1.
Qed.

Lemma remove_all_nonempty (old s : Py.str) sp c :
  last old = Some sp → Py.isspace sp = true →
  last s = Some c → Py.isspace c = false →
  Py.remove_all old s ≠ [].
Proof.
  intros Hold Hsp Hl Hc. unfold Py.remove_all.
  eapply remove_go_nonempty; eauto. discriminate.
Qed.

(** ** Title *)

Lemma clean_prefix_nonempty (t : Py.str) c :
  last t = Some c → Py.isspace c = false → clean_prefix t ≠ [].
Proof.
  intros Hl Hc. unfold clean_prefix.
  destruct (Py.startswith t (Py.lit "Microsoft Word - ")).
  - by apply (remove_all_nonempty _ t 32%N c).
  - intros ->. discriminate.
Qed.

Lemma drop_last_nonempty k (t : Py.str) : k < length t → Py.drop_last k t ≠ [].
Proof.
  intros Hk Hd. apply (f_equal length) in Hd.
  unfold Py.drop_last in Hd. rewrite length_take in Hd. simpl in Hd. lia.
Qed.

(** The suffix step never empties a title: it cuts fewer characters than
    the suffix it has found. *)
Lemma clean_suffix_nonempty (t : Py.str) : t ≠ [] → clean_suffix t ≠ [].
Proof.
  intros Ht. unfold clean_suffix.
  destruct (Py.endswith t (Py.lit ".doc")) eqn:E1;
    destruct (Py.endswith t (Py.lit ".docx")) eqn:E2; simpl; try done.
  - apply endswith_length in E2. apply drop_last_nonempty.
    change (length (Py.lit ".docx")) with 5 in E2. lia.
  - apply endswith_length in E1. apply drop_last_nonempty.
    change (length (Py.lit ".doc")) with 4 in E1. lia.
  - apply endswith_length in E2. apply drop_last_nonempty.
    change (length (Py.lit ".docx")) with 5 in E2. lia.
Qed.

Lemma max_by_key_in c cs : max_by_key c cs ∈ c :: cs.
Proof.
  revert c. induction cs as [|x cs IH]; intros c; simpl.
  - apply list_elem_of_here.
  - specialize (IH (if Qlt_bool c.1 x.1 then x else c)).
    destruct (Qlt_bool c.1 x.1).
    + by apply list_elem_of_further.
    + apply elem_of_cons in IH as [-> | IH].
      * apply list_elem_of_here.
      * by do 2 apply list_elem_of_further.
Qed.

Lemma usable_meta_true meta :
  usable_meta meta = true → Py.strip (default [] meta) ≠ [].
Proof.
  destruct meta as [[|c m]|]; simpl; try discriminate.
  intros H%negb_true_iff. by apply bool_decide_eq_false in H.
Qed.

(** Every branch of the title extractor yields a non-empty title. *)
Lemma extract_title_nonempty doc t : extract_title doc = Ok t → t ≠ [].
Proof.
  unfold extract_title.
  destruct (usable_meta (metadata_title doc)) eqn:Hm.
  - intros [= <-]. apply usable_meta_true in Hm.
    apply clean_suffix_nonempty.
    destruct (last (Py.strip (default [] (metadata_title doc)))) as [c|] eqn:Hl.
    + eapply clean_prefix_nonempty; [exact Hl|]. by eapply strip_last.
    + by apply last_None in Hl.
  - destruct (getitem doc 0) as [pg|]; [|discriminate]. cbn [mbind result_bind].
    match goal with |- context [omap ?f (page_spans pg)] =>
      destruct (omap f (page_spans pg)) as [|c cs] eqn:Hc end.
    + match goal with |- context [omap ?f (page_spans pg)] =>
        destruct (omap f (page_spans pg)) as [|c cs] eqn:Ha end.
      * by intros [= <-].
      * intros [= <-]. pose proof (max_by_key_in c cs) as Hin.
        rewrite <- Ha in Hin. apply list_elem_of_omap in Hin as (sp & _ & Hsp).
        destruct (bool_decide _) eqn:Hb in Hsp; [discriminate|].
        injection Hsp as <-. by apply bool_decide_eq_false in Hb.
    + intros [= <-]. pose proof (max_by_key_in c cs) as Hin.
      rewrite <- Hc in Hin. apply list_elem_of_omap in Hin as (sp & _ & Hsp).
      destruct (bool_decide _) eqn:Hb in Hsp; [discriminate|].
      destruct (_ && _) in Hsp; [|discriminate].
      injection Hsp as <-. by apply bool_decide_eq_false in Hb.
Qed.

(** C8.  The title of every outline that is returned is a non-empty
    string. *)
Theorem title_nonempty `{U : Unicode} (opened : result Doc)
    (out : DocumentOutline) :
  extract_outline opened = Ok out → title out ≠ [].
Proof.
  intros (doc & h1 & h2 & h3 & _ & _ & _ & Ht)%extract_outline_Ok.
  by eapply extract_title_nonempty.
Qed.

Lemma title_nonempty_witness : title doc_sample_outline ≠ [].
Proof.
  apply (@title_nonempty ascii_tables (Ok doc_sample) doc_sample_outline).
  vm_compute. reflexivity.
Defined.

(** ** Deleting a prefix everywhere *)

Section RemoveAll.
Variable old : Py.str.
Hypothesis old_nonempty : old ≠ [].

Lemma occurs_at_0 (s : Py.str) :
  occurs_at old s 0 ↔ Py.startswith s old = true.
Proof.
  unfold occurs_at. rewrite startswith_spec, drop_0. split.
  - intros H. exists (drop (length old) s).
    by rewrite <- H at 1; rewrite take_drop.
  - intros [y ->]. by rewrite take_app_length.
Qed.

Lemma occurs_at_S c (s : Py.str) i :
  occurs_at old (c :: s) (S i) ↔ occurs_at old s i.
Proof. reflexivity. Qed.

Lemma occurs_at_nil i : ¬ occurs_at old [] i.
Proof.
  unfold occurs_at. rewrite drop_nil, take_nil. intros H. by apply old_nonempty.
Qed.

Lemma remove_go_skip k (s : Py.str) :
  Py.remove_go old k s = Py.remove_go old 0 (drop k s).
Proof.
  revert k. induction s as [|c s IH]; intros [|k]; try reflexivity.
  rewrite remove_go_cons. apply IH.
Qed.

Lemma remove_all_prefix (y : Py.str) :
  Py.remove_all old (old ++ y) = Py.remove_all old y.
Proof.
  unfold Py.remove_all. destruct old as [|a old'] eqn:E; [done|].
  rewrite <- E at 1. rewrite <- app_comm_cons, remove_go_cons.
  assert (Py.startswith (a :: old' ++ y) old = true) as ->
    by (apply startswith_spec; exists y; by rewrite E).
  rewrite remove_go_skip, E. simpl. by rewrite Nat.sub_0_r, drop_app_length.
Qed.

Lemma remove_all_cons c (s : Py.str) :
  Py.startswith (c :: s) old = false →
  Py.remove_all old (c :: s) = c :: Py.remove_all old s.
Proof. unfold Py.remove_all. rewrite remove_go_cons. by intros ->. Qed.

Lemma RemovedAll_cons c (s r : Py.str) :
  ¬ occurs_at old (c :: s) 0 →
  RemovedAll old s r → RemovedAll old (c :: s) (c :: r).
Proof.
  intros H0 Hr. destruct Hr as [s Hnone | x y r Hleft Hr].
  - apply removed_none. intros [|i]; [exact H0|].
    rewrite occurs_at_S. apply Hnone.
  - apply (removed_leftmost old (c :: x) y r); [|exact Hr].
    intros [|i] Hi; [exact H0|].
    simpl. rewrite occurs_at_S. apply Hleft. simpl in Hi. lia.
Qed.

(** [remove_all] deletes the occurrences of [old] from the left. *)
Lemma remove_all_RemovedAll (s : Py.str) :
  RemovedAll old s (Py.remove_all old s).
Proof.
  remember (length s) as n eqn:Hn. revert s Hn.
  induction n as [n IH] using lt_wf_ind. intros [|c s] Hn.
  - apply removed_none, occurs_at_nil.
  - destruct (Py.startswith (c :: s) old) eqn:Hsw.
    + destruct (proj1 (startswith_spec _ _) Hsw) as [y Hy]. rewrite Hy.
      rewrite remove_all_prefix.
      apply (removed_leftmost old [] y); [simpl; lia|].
      apply (IH (length y)); [|done].
      rewrite Hn, Hy, length_app. destruct old; [done | simpl; lia].
    + rewrite remove_all_cons by done. apply RemovedAll_cons.
      * rewrite occurs_at_0. congruence.
      * apply (IH (length s)); [subst n; simpl; lia | done].
Qed.

End RemoveAll.

(** C10, as stated, fails.  The trimmed metadata title of
    [doc_word_inside], "Notes Microsoft Word - Plan", holds the substring
    at position 6 and does not begin with it: the extractor returns the
    title as it is, the substring still in it. *)
Lemma prefix_kept_inside :
  let m := Py.lit "Notes Microsoft Word - Plan" in
  metadata_title doc_word_inside = Some m
  ∧ occurs_at (Py.lit "Microsoft Word - ") (Py.strip m) 6
  ∧ extract_title doc_word_inside = Ok m
  ∧ Py.contains m (Py.lit "Microsoft Word - ") = true.
Proof. repeat split; vm_compute; reflexivity. Qed.

(** C10, as the code has it.  When the trimmed metadata title begins with
    "Microsoft Word - ", the extractor deletes the occurrences of that
    substring anywhere in the title, from the left, not only the leading
    one; the suffix step then applies to what is left.  When the trimmed
    title does not begin with it, no occurrence is deleted. *)
Theorem prefix_removed_everywhere (doc : Doc) (m : Py.str) :
  metadata_title doc = Some m →
  Py.strip m ≠ [] →
  (Py.startswith (Py.strip m) (Py.lit "Microsoft Word - ") = true →
   ∃ r, RemovedAll (Py.lit "Microsoft Word - ") (Py.strip m) r
        ∧ extract_title doc = Ok (clean_suffix r))
  ∧ (Py.startswith (Py.strip m) (Py.lit "Microsoft Word - ") = false →
     extract_title doc = Ok (clean_suffix (Py.strip m))).
Proof.
  intros Hm Hne.
  assert (usable_meta (metadata_title doc) = true) as Hu.
  { rewrite Hm. simpl. destruct m as [|c m]; [done|].
    apply negb_true_iff. by apply bool_decide_eq_false. }
  unfold extract_title. rewrite Hu, Hm. simpl default. unfold clean_prefix.
  split; intros ->.
  - eexists. split; [|reflexivity].
    by apply remove_all_RemovedAll.
  - reflexivity.
Qed.

Lemma prefix_removed_everywhere_witness :
  let m := Py.lit " Microsoft Word - Plan Microsoft Word - B.doc " in
  (Py.startswith (Py.strip m) (Py.lit "Microsoft Word - ") = true →
   ∃ r, RemovedAll (Py.lit "Microsoft Word - ") (Py.strip m) r
        ∧ extract_title {| metadata_title := Some m; pages := [] |}
          = Ok (clean_suffix r))
  ∧ (Py.startswith (Py.strip m) (Py.lit "Microsoft Word - ") = false →
     extract_title {| metadata_title := Some m; pages := [] |}
     = Ok (clean_suffix (Py.strip m))).
Proof.
  intros m.
  apply (prefix_removed_everywhere {| metadata_title := Some m; pages := [] |} m).
  - reflexivity.
  - vm_compute. discriminate.
Defined.

Example prefix_removed_everywhere_run :
  extract_title {| metadata_title :=
                     Some (Py.lit " Microsoft Word - Plan Microsoft Word - B.doc ");
                   pages := [] |}
  = Ok (Py.lit "Plan B.").
Proof. vm_compute. reflexivity. Qed.

(** * Further properties *)

(** ** Stripping *)

Lemma lstrip_head (s : Py.str) c r :
  Py.lstrip s = c :: r → Py.isspace c = false.
Proof.
  induction s as [|a s IH]; simpl; [discriminate|].
  destruct (Py.isspace a) eqn:Ha; [exact IH|]. by intros [= <- <-].
Qed.

Lemma lstrip_fixed (s : list N) (c : N) :
  Py.isspace c = false → Py.lstrip (c :: s) = c :: s.
Proof. intros Hc. simpl. by rewrite Hc. Qed.

Lemma rstrip_cons_nonspace (s : list N) (c : N) :
  Py.isspace c = false → ∃ r : list N, Py.rstrip (c :: s) = c :: r.
Proof.
  intros Hc. simpl. destruct (Py.rstrip s) as [|b r].
  - rewrite Hc. by exists [].
  - by exists (b :: r).
Qed.

Lemma rstrip_fixed (r : Py.str) c :
  last r = Some c → Py.isspace c = false → Py.rstrip r = r.
Proof.
  intros Hl Hc. induction r as [|a r IH]; [done|].
  destruct r as [|b r].
  - simpl in *. injection Hl as ->. by rewrite Hc.
  - rewrite last_cons_cons in Hl. specialize (IH Hl).
    change (Py.rstrip (a :: b :: r)) with
      (match Py.rstrip (b :: r) with
       | [] => if Py.isspace a then [] else [a]
       | x :: r' => a :: x :: r'
       end).
    by rewrite IH.
Qed.

Lemma rstrip_idempotent (s : Py.str) : Py.rstrip (Py.rstrip s) = Py.rstrip s.
Proof.
  destruct (last (Py.rstrip s)) as [c|] eqn:Hl.
  - eapply rstrip_fixed; [exact Hl|]. by eapply rstrip_last.
  - apply last_None in Hl. by rewrite Hl.
Qed.

(** Stripping twice is stripping once. *)
Lemma strip_idempotent (s : Py.str) : Py.strip (Py.strip s) = Py.strip s.
Proof.
  unfold Py.strip. destruct (Py.lstrip s) as [|c l] eqn:Hs; [done|].
  pose proof (lstrip_head _ _ _ Hs) as Hc.
  destruct (rstrip_cons_nonspace l c Hc) as [r Hr].
  rewrite Hr, (lstrip_fixed r c Hc), <- Hr. apply rstrip_idempotent.
Qed.

Lemma lstrip_all_space (s : Py.str) :
  Py.lstrip s = [] ↔ forallb Py.isspace s = true.
Proof.
  induction s as [|a s IH]; simpl; [done|].
  destruct (Py.isspace a); simpl; [exact IH|]. split; discriminate.
Qed.

(** A string strips to the empty string exactly when it holds white space
    only. *)
Lemma strip_empty (s : Py.str) :
  Py.strip s = [] ↔ forallb Py.isspace s = true.
Proof.
  rewrite <- lstrip_all_space. unfold Py.strip.
  destruct (Py.lstrip s) as [|c l] eqn:Hs; [done|].
  destruct (rstrip_cons_nonspace l c (lstrip_head _ _ _ Hs)) as [r ->].
  split; discriminate.
Qed.

(** ** Validity filter *)

(** X1.  The validity filter does not see white space around the text. *)
Theorem is_valid_heading_strip `{U : Unicode} (text : Py.str) :
  is_valid_heading (Py.strip text) = is_valid_heading text.
Proof. unfold is_valid_heading. by rewrite strip_idempotent. Qed.

(** X2.  A text whose words all belong to the form vocabulary is not a
    valid heading. *)
Theorem form_words_rejected `{U : Unicode} (text : Py.str) :
  let words := Py.split (lower (Py.strip text)) in
  words ≠ [] →
  Forall (λ word, word ∈ form_words) words →
  is_valid_heading text = false.
Proof.
  intros words Hne Hall. unfold is_valid_heading.
  destruct (length (Py.strip text) <? 3); [done|].
  destruct (_ || _); [done|].
  fold words.
  assert (List.filter (λ word, bool_decide (word ∈ form_words)) words = words)
    as ->.
  { clear Hne. induction Hall as [|w ws Hw _ IH]; simpl; [done|].
    by rewrite bool_decide_eq_true_2, IH. }
  assert (Qlt_bool (inject_Z (Z.of_nat (length words)) * (8 # 10))
                   (inject_Z (Z.of_nat (length words))) = true) as ->; [|done].
  apply Qlt_bool_iff. unfold Qlt, Qmult, inject_Z. simpl.
  destruct words; [done|]. simpl length. lia.
Qed.

Lemma form_words_rejected_witness :
  @is_valid_heading ascii_tables (Py.lit " Name Date ") = false.
Proof.
  apply (@form_words_rejected ascii_tables (Py.lit " Name Date ")).
  - vm_compute. discriminate.
  - vm_compute. repeat constructor.
Defined.

(** ** Script detection *)

Lemma has_cjk_below (text : Py.str) :
  Forall (λ c, (c < 0x3040)%N) text → has_cjk text = false.
Proof.
  unfold has_cjk. induction 1 as [|c t Hc _ IH]; simpl; [done|].
  rewrite IH, orb_false_r.
  assert ((0x4e00 <=? c)%N = false) as -> by (apply N.leb_gt; lia).
  assert ((0x3040 <=? c)%N = false) as -> by (apply N.leb_gt; lia).
  assert ((0xac00 <=? c)%N = false) as -> by (apply N.leb_gt; lia).
  reflexivity.
Qed.

(** X3.  For a line whose characters all lie below U+3040, the heading
    level depends on the text, the size and the page only: the bold flag
    plays no part. *)
Theorem level_ignores_bold_below_cjk (h1_size h2_size h3_size : Q)
    (feat feat' : LineFeature) :
  text feat = text feat' →
  size feat = size feat' →
  page feat = page feat' →
  Forall (λ c, (c < 0x3040)%N) (text feat) →
  assign_level h1_size h2_size h3_size feat
  = assign_level h1_size h2_size h3_size feat'.
Proof.
  intros Ht Hs Hp Hlow. unfold assign_level, entry.
  rewrite <- Ht, <- Hs, <- Hp, (has_cjk_below _ Hlow).
  by rewrite !orb_true_r.
Qed.

Lemma level_ignores_bold_below_cjk_witness :
  let feat' := {| text := Py.lit "Scope"; size := 14; bold := true;
                  y0 := 300; y1 := 316; page := 1 |} in
  assign_level 14 12 10 feat_scope = assign_level 14 12 10 feat'.
Proof.
  intros feat'.
  apply (level_ignores_bold_below_cjk 14 12 10 feat_scope feat');
    try reflexivity.
  vm_compute. repeat constructor.
Defined.

(** ** Heading levels *)

Lemma counter_add_keys x (c : list (Q * nat)) k n :
  (k, n) ∈ counter_add x c → k = x ∨ ∃ n', (k, n') ∈ c.
Proof.
  induction c as [|[k0 n0] c IH]; simpl.
  - intros [= -> ->]%list_elem_of_singleton. by left.
  - destruct (Qeq_bool k0 x).
    + intros [[= -> ->] | Hin]%elem_of_cons; right.
      * exists n0. apply list_elem_of_here.
      * exists n. by apply list_elem_of_further.
    + intros [[= -> ->] | Hin]%elem_of_cons.
      * right. exists n0. apply list_elem_of_here.
      * destruct (IH Hin) as [-> | [n' Hn']]; [by left | right].
        exists n'. by apply list_elem_of_further.
Qed.

(** The keys of the counter are values of the list. *)
Lemma Counter_keys_in (l : list Q) k n : (k, n) ∈ Counter l → k ∈ l.
Proof.
  unfold Counter.
  assert (∀ c : list (Q * nat),
            (k, n) ∈ foldl (λ c x, counter_add x c) c l →
            k ∈ l ∨ ∃ n', (k, n') ∈ c) as Hgen.
  { revert n. induction l as [|a l IH]; intros n c Hin; simpl in Hin.
    - right. by exists n.
    - destruct (IH _ _ Hin) as [Hl | [n' Hn']].
      + left. by apply list_elem_of_further.
      + destruct (counter_add_keys _ _ _ _ Hn') as [-> | Hc]; [|by right].
        left. apply list_elem_of_here. }
  intros Hin. destruct (Hgen [] Hin) as [Hl | [n' Hn']]; [done|].
  by apply elem_of_nil in Hn'.
Qed.

(** The sizes ranked by [get_heading_levels] are sizes of the document. *)
Lemma ranked_sizes_in (font_sizes : list Q) h :
  h ∈ sorted_desc Qle_bool (most_common (Counter font_sizes)).*1 →
  h ∈ font_sizes.
Proof.
  rewrite elem_of_sorted_desc, list_elem_of_fmap.
  intros ([k n] & -> & Hin). apply elem_of_sorted_desc in Hin.
  by eapply Counter_keys_in.
Qed.

Lemma insert_desc_sorted x (l : list Q) :
  StronglySorted (λ a b, (b <= a)%Q) l →
  StronglySorted (λ a b, (b <= a)%Q) (insert_desc Qle_bool x l).
Proof.
  induction 1 as [|y l Hs IH Hall]; simpl.
  - repeat constructor.
  - destruct (Qle_bool y x) eqn:Hyx.
    + apply Qle_bool_iff in Hyx. constructor; [by constructor|].
      constructor; [done|].
      eapply Forall_impl; [exact Hall|]. intros b Hb. simpl in Hb.
      exact (Qle_trans _ _ _ Hb Hyx).
    + constructor; [exact IH|].
      apply Forall_forall. intros b [-> | Hb]%elem_of_insert_desc.
      * apply Qlt_le_weak, Qlt_bool_iff. unfold Qlt_bool. by rewrite Hyx.
      * by eapply Forall_forall in Hall.
Qed.

Lemma sorted_desc_sorted (l : list Q) :
  StronglySorted (λ a b, (b <= a)%Q) (sorted_desc Qle_bool l).
Proof.
  induction l as [|x l IH]; simpl; [constructor|]. by apply insert_desc_sorted.
Qed.

(** X4.  The thresholds are three values in decreasing order when no size
    is negative: the H1 size is the largest, the H3 size the smallest. *)
Theorem get_heading_levels_decreasing (font_sizes : list Q) :
  Forall (λ x, (0 <= x)%Q) font_sizes →
  ∃ h1 h2 h3,
    get_heading_levels font_sizes = [h1; h2; h3]
    ∧ (h2 <= h1)%Q ∧ (h3 <= h2)%Q ∧ (0 <= h3)%Q.
Proof.
  intros Hpos. unfold get_heading_levels.
  set (common := sorted_desc Qle_bool (most_common (Counter font_sizes)).*1).
  assert (Forall (λ x, (0 <= x)%Q) common) as Hcommon.
  { apply Forall_forall. intros h Hh%ranked_sizes_in.
    by eapply Forall_forall in Hpos. }
  assert (StronglySorted (λ a b, (b <= a)%Q) (common ++ [0; 0; 0]%Q)) as Hs.
  { apply StronglySorted_app_2.
    - intros x1 x2 Hx1 Hx2. eapply Forall_forall in Hcommon; [|exact Hx1].
      apply elem_of_cons in Hx2 as [-> | Hx2]; [done|].
      apply elem_of_cons in Hx2 as [-> | Hx2]; [done|].
      by apply list_elem_of_singleton in Hx2 as ->.
    - apply sorted_desc_sorted.
    - repeat constructor; apply Qle_refl. }
  assert (Forall (λ x, (0 <= x)%Q) (common ++ [0; 0; 0]%Q)) as Hall.
  { apply Forall_app. split; [done|]. repeat constructor; apply Qle_refl. }
  destruct common as [|a [|b [|c rest]]]; simpl in *.
  - exists 0%Q, 0%Q, 0%Q. repeat split; apply Qle_refl.
  - exists a, 0%Q, 0%Q. inversion Hall; subst.
    repeat split; [done | apply Qle_refl | apply Qle_refl].
  - exists a, b, 0%Q. inversion Hs as [|? ? _ Ha]; subst.
    inversion Ha; subst. inversion Hall as [|? ? _ Hall']; subst.
    inversion Hall'; subst. repeat split; [done | done | apply Qle_refl].
  - exists a, b, c. inversion Hs as [|? ? Hs' Ha]; subst.
    inversion Ha; subst. inversion Hs' as [|? ? _ Hb]; subst.
    inversion Hb; subst. inversion Hall as [|? ? _ Hall']; subst.
    inversion Hall' as [|? ? _ Hall'']; subst. inversion Hall''; subst.
    by repeat split.
Qed.

Lemma get_heading_levels_decreasing_witness :
  ∃ h1 h2 h3,
    get_heading_levels [10; 10; 12; 10; 16; 12]%Q = [h1; h2; h3]
    ∧ (h2 <= h1)%Q ∧ (h3 <= h2)%Q ∧ (0 <= h3)%Q.
Proof.
  apply (get_heading_levels_decreasing [10; 10; 12; 10; 16; 12]%Q).
  repeat constructor; discriminate.
Defined.

(** X5.  Every threshold is a size of the document or the padding 0. *)
Theorem get_heading_levels_from_sizes (font_sizes : list Q) (h : Q) :
  h ∈ get_heading_levels font_sizes → h ∈ font_sizes ∨ h = 0%Q.
Proof.
  unfold get_heading_levels. intros Hh.
  apply (sublist_subseteq _ _ (sublist_take _ 3)) in Hh.
  apply elem_of_app in Hh as [Hh | Hh]; [left; by apply ranked_sizes_in|].
  right. apply elem_of_cons in Hh as [-> | Hh]; [done|].
  apply elem_of_cons in Hh as [-> | Hh]; [done|].
  by apply list_elem_of_singleton in Hh.
Qed.

Lemma get_heading_levels_from_sizes_witness :
  16%Q ∈ [10; 10; 12; 10; 16; 12]%Q ∨ 16%Q = 0%Q.
Proof.
  apply (get_heading_levels_from_sizes [10; 10; 12; 10; 16; 12]%Q 16%Q).
  vm_compute. apply list_elem_of_here.
Defined.

(** ** Repeated elements *)

(** X6.  Only a text that has a line in a margin zone can be in the
    repeated-element set: a text printed in the body of the pages only is
    never excluded, however often it recurs. *)
Theorem repeated_have_margin_line (lines : list LineFeature) (num_pages : nat)
    (page_height : Q) (t : Py.str) :
  t ∈ find_repeated_elements lines num_pages page_height →
  ∃ feat, feat ∈ lines ∧ text feat = t ∧ in_margin feat page_height = true.
Proof.
  rewrite elem_of_repeated. unfold occurrences. intros Hlt.
  destruct (List.filter _ lines) as [|feat l] eqn:Hf; [simpl in Hlt; lia|].
  assert (In feat (List.filter (λ feat, bool_decide (text feat = t)
                   && in_margin feat page_height) lines)) as Hin
    by (rewrite Hf; by left).
  apply filter_In in Hin as [Hin [Ht Hm]%andb_true_iff].
  exists feat. split; [by apply list_elem_of_In|].
  split; [by apply bool_decide_eq_true in Ht | done].
Qed.

Lemma repeated_have_margin_line_witness :
  ∃ feat, feat ∈ @lines_of ascii_tables doc_sample
          ∧ text feat = Py.lit "Confidential draft"
          ∧ in_margin feat (page_height_of doc_sample) = true.
Proof.
  apply (repeated_have_margin_line (@lines_of ascii_tables doc_sample)
           (num_pages_of doc_sample) (page_height_of doc_sample)
           (Py.lit "Confidential draft")).
  apply elem_of_repeated. vm_compute. lia.
Defined.

Lemma occurrences_Permutation (t : Py.str) (lines lines' : list LineFeature)
    (page_height : Q) :
  lines ≡ₚ lines' →
  occurrences t lines page_height = occurrences t lines' page_height.
Proof.
  unfold occurrences. induction 1 as [|x l l' _ IH|x y l|l1 l2 l3 _ IH1 _ IH2];
    simpl; [done| | |congruence].
  - destruct (_ && _); simpl; by rewrite IH.
  - by destruct (bool_decide (text y = t) && in_margin y page_height),
         (bool_decide (text x = t) && in_margin x page_height).
Qed.

(** X7.  The repeated-element set does not depend on the order of the
    lines. *)
Theorem repeated_order_independent (lines lines' : list LineFeature)
    (num_pages : nat) (page_height : Q) :
  lines ≡ₚ lines' →
  find_repeated_elements lines num_pages page_height
  = find_repeated_elements lines' num_pages page_height.
Proof.
  intros Hp. apply set_eq. intros t.
  by rewrite !elem_of_repeated, (occurrences_Permutation t _ _ _ Hp).
Qed.

Lemma repeated_order_independent_witness :
  find_repeated_elements (@lines_of ascii_tables doc_sample) 3 800
  = find_repeated_elements (reverse (@lines_of ascii_tables doc_sample)) 3 800.
Proof.
  apply (repeated_order_independent (@lines_of ascii_tables doc_sample)
           (reverse (@lines_of ascii_tables doc_sample)) 3 800).
  symmetry. apply reverse_Permutation.
Defined.

(** ** Whole documents *)

Section Documents.
Context `{U : Unicode}.

(** [extract_outline] on a document that has opened, with the title left
    to compute. *)
Lemma extract_outline_unfold (doc : Doc) :
  ∃ h1 h2 h3,
    get_heading_levels (size <$> lines_of doc) = [h1; h2; h3]
    ∧ extract_outline (Ok doc) =
      match extract_title doc with
      | Ok t =>
          Ok {| title := t;
                outline := omap (heading_of (repeated_of doc) h1 h2 h3)
                                (lines_of doc) |}
      | Raise e => Raise e
      end.
Proof.
  pose proof (get_heading_levels_length (size <$> lines_of doc)) as Hlen.
  destruct (get_heading_levels (size <$> lines_of doc))
    as [|h1 [|h2 [|h3 [|]]]] eqn:Hl; try discriminate.
  exists h1, h2, h3. split; [done|].
  unfold extract_outline. cbn [mbind result_bind].
  rewrite page_height_computed. cbn [mbind result_bind].
  fold (num_pages_of doc). fold (lines_of doc). fold (repeated_of doc).
  rewrite Hl. cbv beta iota.
  destruct (extract_title doc); cbn [mbind result_bind]; [|done].
  by rewrite foldl_heading_step.
Qed.

Lemma extract_title_first_page (doc : Doc) :
  pages doc ≠ [] → ∃ t, extract_title doc = Ok t.
Proof.
  intros Hne. unfold extract_title, getitem.
  destruct (usable_meta (metadata_title doc)); [by eexists|].
  destruct (pages doc) as [|pg ps]; [done|]. cbn [lookup list_lookup mbind result_bind].
  destruct (omap _ (page_spans pg)); [|by eexists].
  destruct (omap _ (page_spans pg)); by eexists.
Qed.

End Documents.

(** X8.  A document that opens and has at least one page always yields an
    outline: the extractor raises no exception on it. *)
Theorem extract_outline_succeeds `{U : Unicode} (doc : Doc) :
  pages doc ≠ [] → ∃ out, extract_outline (Ok doc) = Ok out.
Proof.
  intros Hne. destruct (extract_outline_unfold doc) as (h1 & h2 & h3 & _ & ->).
  destruct (extract_title_first_page doc Hne) as [t ->]. by eexists.
Qed.

Lemma extract_outline_succeeds_witness :
  ∃ out, @extract_outline ascii_tables (Ok doc_blank) = Ok out.
Proof.
  apply (@extract_outline_succeeds ascii_tables doc_blank). discriminate.
Defined.

(** X9.  Pages after the fiftieth play no part: a document and its first
    fifty pages have the same outcome. *)
Theorem extract_outline_first_pages `{U : Unicode} (doc : Doc) :
  extract_outline (Ok (first_pages doc)) = extract_outline (Ok doc).
Proof.
  assert (getitem (first_pages doc) 0 = getitem doc 0) as Hget.
  { unfold getitem, first_pages. simpl.
    by rewrite lookup_take_lt by (unfold MAX_PAGES; lia). }
  assert (length (pages (first_pages doc)) `min` MAX_PAGES
          = length (pages doc) `min` MAX_PAGES) as Hnum.
  { unfold first_pages. simpl. rewrite length_take. lia. }
  assert (∀ n, n ≤ MAX_PAGES → collect (first_pages doc) n = collect doc n)
    as Hcollect.
  { intros n Hn. unfold collect, first_pages. simpl.
    rewrite take_take. by replace (n `min` MAX_PAGES) with n by lia. }
  assert (extract_title (first_pages doc) = extract_title doc) as Htitle.
  { unfold extract_title. by rewrite Hget. }
  unfold extract_outline. cbn [mbind result_bind].
  rewrite Hnum, Hget, Htitle, Hcollect by lia. reflexivity.
Qed.

(** ** Order and shape of the entries *)

Section Entries.
Context `{U : Unicode}.

Lemma collect_page_from_line i pg feat :
  feat ∈ collect_page i pg →
  ∃ line, collect_line i line = Some feat ∧ ∀ s, s ∈ line → s ∈ page_spans pg.
Proof.
  unfold collect_page, page_spans. rewrite list_elem_of_In, in_flat_map.
  intros (block & Hb & Hin). destruct block as [lines|]; [|destruct Hin].
  apply list_elem_of_In, list_elem_of_omap in Hin as (line & Hline & Hl).
  exists line. split; [done|]. intros s Hs.
  apply list_elem_of_In, in_flat_map. exists (TextBlock lines). split; [done|].
  apply in_flat_map. exists line. split; by apply list_elem_of_In.
Qed.

Lemma collect_from_line doc num_pages feat :
  feat ∈ collect doc num_pages →
  ∃ i pg line,
    pages doc !! i = Some pg ∧ collect_line i line = Some feat
    ∧ ∀ s, s ∈ line → s ∈ page_spans pg.
Proof.
  unfold collect. rewrite list_elem_of_In, in_concat.
  intros (l & Hl%list_elem_of_In & Hfeat%list_elem_of_In).
  apply elem_of_lookup_imap in Hl as (i & pg & -> & Hi).
  apply collect_page_from_line in Hfeat as (line & Hline & Hs).
  exists i, pg, line. split; [|done].
  apply lookup_take_Some in Hi. tauto.
Qed.

(** The collected lines come page after page. *)
Lemma collect_pages_sorted (ps : list Page) (k : nat) :
  StronglySorted (λ f1 f2, page f1 ≤ page f2)
    (concat (imap (λ i, collect_page (k + i)) ps))
  ∧ Forall (λ f, k + 1 ≤ page f) (concat (imap (λ i, collect_page (k + i)) ps)).
Proof.
  revert k. induction ps as [|pg ps IH]; intros k.
  - split; constructor.
  - rewrite imap_cons. simpl concat.
    destruct (IH (S k)) as [IHs IHf].
    rewrite (imap_ext _ (λ i, collect_page (S k + i))) by
      (intros i x _; simpl; f_equal; lia).
    assert (Forall (λ f, page f = k + 1) (collect_page (k + 0) pg)) as Hpg.
    { apply Forall_forall. intros f Hf%collect_page_page. lia. }
    split.
    + apply StronglySorted_app_2; [| |exact IHs].
      * intros f1 f2 Hf1 Hf2.
        eapply Forall_forall in Hpg; [|exact Hf1].
        eapply Forall_forall in IHf; [|exact Hf2]. simpl in *. lia.
      * induction Hpg as [|f l Hf Hl IHl]; constructor; [done|].
        eapply Forall_impl; [exact Hl|]. simpl. intros. lia.
    + apply Forall_app. split.
      * eapply Forall_impl; [exact Hpg|]. simpl. intros. lia.
      * eapply Forall_impl; [exact IHf|]. simpl. intros. lia.
Qed.

Lemma collect_sorted doc num_pages :
  StronglySorted (λ f1 f2, page f1 ≤ page f2) (collect doc num_pages).
Proof. apply (collect_pages_sorted _ 0). Qed.

Lemma omap_sorted {A B} (f : A → option B) (ka : A → nat) (kb : B → nat)
    (l : list A) :
  (∀ x y, f x = Some y → kb y = ka x) →
  StronglySorted (λ x1 x2, ka x1 ≤ ka x2) l →
  StronglySorted (λ y1 y2, kb y1 ≤ kb y2) (omap f l).
Proof.
  intros Hk. induction 1 as [|x l Hs IH Hall]; simpl; [constructor|].
  destruct (f x) as [y|] eqn:Hy; [|exact IH].
  constructor; [exact IH|].
  apply Forall_forall. intros y' (x' & Hx' & Hy')%list_elem_of_omap.
  eapply Forall_forall in Hall; [|exact Hx'].
  rewrite (Hk _ _ Hy), (Hk _ _ Hy'). exact Hall.
Qed.

Lemma heading_of_page repeated h1 h2 h3 feat e :
  heading_of repeated h1 h2 h3 feat = Some e → entry_page e = page feat.
Proof.
  unfold heading_of. destruct (_ || _); [discriminate|].
  by intros (_ & -> & _)%assign_level_entry.
Qed.

End Entries.

(** X10.  The entries of an outline stand in the order of the pages: no
    entry is followed by an entry of an earlier page. *)
Theorem outline_in_page_order `{U : Unicode} (opened : result Doc)
    (out : DocumentOutline) :
  extract_outline opened = Ok out →
  StronglySorted (λ e1 e2, entry_page e1 ≤ entry_page e2) (outline out).
Proof.
  intros (doc & h1 & h2 & h3 & _ & _ & -> & _)%extract_outline_Ok.
  eapply omap_sorted; [|apply collect_sorted].
  intros feat e. apply heading_of_page.
Qed.

Lemma outline_in_page_order_witness :
  StronglySorted (λ e1 e2, entry_page e1 ≤ entry_page e2)
    (outline doc_sample_outline).
Proof.
  apply (@outline_in_page_order ascii_tables (Ok doc_sample) doc_sample_outline).
  vm_compute. reflexivity.
Defined.

(** X11.  The text of every entry carries no white space at its ends, has
    three characters or more and ten words at most, is printable, and
    does not end with a colon. *)
Theorem outline_entry_text_shape `{U : Unicode} (opened : result Doc)
    (out : DocumentOutline) (e : OutlineEntry) :
  extract_outline opened = Ok out →
  e ∈ outline out →
  Py.strip (entry_text e) = entry_text e
  ∧ 3 ≤ length (entry_text e)
  ∧ length (Py.split (entry_text e)) ≤ 10
  ∧ isprintable (entry_text e) = true
  ∧ Py.endswith (entry_text e) (Py.lit ":") = false.
Proof.
  intros Hrun He.
  destruct (elem_of_outline _ _ _ Hrun He)
    as (doc & h1 & h2 & h3 & feat & _ & Hfeat & Hh).
  unfold heading_of in Hh.
  destruct (bool_decide _); [discriminate|].
  destruct (is_valid_heading (text feat)) eqn:Hvalid; [|discriminate].
  simpl in Hh. apply assign_level_entry in Hh as (-> & _ & _).
  apply collect_from_line in Hfeat as (i & pg & line & _ & Hline & _).
  unfold collect_line in Hline.
  remember (Py.strip (concat (span_text <$> line))) as txt eqn:Htxt.
  assert (Py.strip txt = txt) as Hstrip by (subst txt; apply strip_idempotent).
  clear Htxt.
  destruct (bool_decide _) eqn:Hempty; [discriminate|].
  destruct (isprintable _) eqn:Hprint; [|discriminate].
  destruct (20 <? _); [discriminate|].
  destruct line as [|s ss]; [discriminate|].
  injection Hline as <-. cbn [text] in *.
  unfold is_valid_heading in Hvalid. rewrite Hstrip in Hvalid.
  destruct (length txt <? 3) eqn:Hlen; [discriminate|].
  destruct (_ || _); [discriminate|].
  destruct (Qlt_bool _ _); [discriminate|].
  destruct (Py.endswith txt (Py.lit ":")) eqn:Hcolon; [discriminate|].
  destruct (10 <? length (Py.split txt)) eqn:Hwords; [discriminate|].
  apply Nat.ltb_ge in Hlen, Hwords. done.
Qed.

Lemma outline_entry_text_shape_witness :
  let t := Py.lit "Scope" in
  Py.strip t = t ∧ 3 ≤ length t ∧ length (Py.split t) ≤ 10
  ∧ (@isprintable ascii_tables) t = true
  ∧ Py.endswith t (Py.lit ":") = false.
Proof.
  apply (@outline_entry_text_shape ascii_tables (Ok doc_sample)
           doc_sample_outline
           {| entry_level := Py.lit "H2"; entry_text := Py.lit "Scope";
              entry_page := 1 |}).
  - vm_compute. reflexivity.
  - do 2 apply list_elem_of_further. apply list_elem_of_here.
Defined.

(** ** Documents without text *)

Lemma omap_nil {A B} (f : A → option B) (l : list A) :
  (∀ x, x ∈ l → f x = None) → omap f l = [].
Proof.
  induction l as [|x l IH]; intros Hf; simpl; [done|].
  rewrite (Hf x) by apply list_elem_of_here.
  apply IH. intros y Hy. apply Hf. by apply list_elem_of_further.
Qed.

Lemma forallb_concat_spans (line : Line) :
  (∀ s, s ∈ line → forallb Py.isspace (span_text s) = true) →
  forallb Py.isspace (concat (span_text <$> line)) = true.
Proof.
  induction line as [|s line IH]; intros Hs; simpl; [done|].
  rewrite forallb_app, (Hs s) by apply list_elem_of_here. simpl.
  apply IH. intros s' Hs'. apply Hs. by apply list_elem_of_further.
Qed.

(** X12.  A document with at least one page, no usable metadata title and
    nothing but white space in its spans yields the title "Untitled PDF"
    and an empty outline. *)
Theorem blank_document_untitled `{U : Unicode} (doc : Doc) :
  usable_meta (metadata_title doc) = false →
  pages doc ≠ [] →
  (∀ pg s, pg ∈ pages doc → s ∈ page_spans pg →
           forallb Py.isspace (span_text s) = true) →
  extract_outline (Ok doc) =
  Ok {| title := Py.lit "Untitled PDF"; outline := [] |}.
Proof.
  intros Hmeta Hne Hblank.
  destruct (extract_outline_unfold doc) as (h1 & h2 & h3 & _ & ->).
  assert (lines_of doc = []) as ->.
  { destruct (lines_of doc) as [|feat l] eqn:Hl; [done|].
    assert (feat ∈ lines_of doc) as Hfeat by (rewrite Hl; apply list_elem_of_here).
    apply collect_from_line in Hfeat as (i & pg & line & Hpg & Hline & Hsub).
    unfold collect_line in Hline.
    assert (Py.strip (concat (span_text <$> line)) = []) as Hs.
    { apply strip_empty, forallb_concat_spans. intros s Hs.
      apply (Hblank pg); [by eapply list_elem_of_lookup_2 | by apply Hsub]. }
    rewrite Hs in Hline. discriminate. }
  unfold extract_title, getitem. rewrite Hmeta.
  destruct (pages doc) as [|pg ps] eqn:Hp; [done|].
  cbn [lookup list_lookup mbind result_bind].
  assert (∀ s, s ∈ page_spans pg → Py.strip (span_text s) = []) as Hstrip.
  { intros s Hs. apply strip_empty, (Hblank pg); [apply list_elem_of_here | done]. }
  rewrite omap_nil by (intros s Hs; by rewrite (Hstrip s Hs)).
  rewrite omap_nil by (intros s Hs; by rewrite (Hstrip s Hs)).
  reflexivity.
Qed.

Lemma blank_document_untitled_witness :
  @extract_outline ascii_tables (Ok doc_blank) =
  Ok {| title := Py.lit "Untitled PDF"; outline := [] |}.
Proof.
  apply (@blank_document_untitled ascii_tables doc_blank).
  - reflexivity.
  - discriminate.
  - intros pg s Hpg Hs.
    apply list_elem_of_singleton in Hpg as ->.
    apply elem_of_cons in Hs as [-> | Hs]; [reflexivity|].
    apply list_elem_of_singleton in Hs as ->. reflexivity.
Defined.

(** ** The title read from the first page *)

Lemma max_by_key_max c cs x :
  x ∈ c :: cs → (x.1 <= (max_by_key c cs).1)%Q.
Proof.
  revert c x. induction cs as [|y cs IH]; intros c x Hx; simpl.
  - apply list_elem_of_singleton in Hx as ->. apply Qle_refl.
  - set (c' := if Qlt_bool c.1 y.1 then y else c).
    assert ((c.1 <= c'.1)%Q ∧ (y.1 <= c'.1)%Q) as [Hc Hy].
    { unfold c'. destruct (Qlt_bool c.1 y.1) eqn:Hlt.
      - apply Qlt_bool_iff in Hlt. split; [by apply Qlt_le_weak | apply Qle_refl].
      - split; [apply Qle_refl|]. unfold Qlt_bool in Hlt.
        apply negb_false_iff in Hlt. by apply Qle_bool_iff. }
    pose proof (IH c' c' (list_elem_of_here _ _)) as Hmax.
    apply elem_of_cons in Hx as [-> | Hx]; [by eapply Qle_trans|].
    apply elem_of_cons in Hx as [-> | Hx]; [by eapply Qle_trans|].
    apply IH. by apply list_elem_of_further.
Qed.

(** X13.  Without a usable metadata title, when the first page has a span
    with text, size 15 or more and flag 2, the title is the text of such a
    span, and no such span of the page is larger. *)
Theorem title_is_largest_candidate (doc : Doc) (pg : Page) (s : Span) :
  usable_meta (metadata_title doc) = false →
  pages doc !! 0 = Some pg →
  s ∈ page_spans pg →
  is_title_candidate s = true →
  ∃ best,
    best ∈ page_spans pg
    ∧ is_title_candidate best = true
    ∧ extract_title doc = Ok (Py.strip (span_text best))
    ∧ ∀ s', s' ∈ page_spans pg → is_title_candidate s' = true →
            (span_size s' <= span_size best)%Q.
Proof.
  intros Hmeta Hpg Hs Hcand. unfold extract_title, getitem.
  rewrite Hmeta, Hpg. cbn [mbind result_bind].
  set (f := λ span : Span,
         if negb (bool_decide (Py.strip (span_text span) = []))
            && Qle_bool 15 (span_size span) && flag2 span
         then Some (span_size span, Py.strip (span_text span)) else None).
  assert (∀ s' x, f s' = Some x ↔
            is_title_candidate s' = true
            ∧ x = (span_size s', Py.strip (span_text s'))) as Hf.
  { intros s' x. unfold f, is_title_candidate.
    destruct (_ && _); split.
    - by intros [= <-].
    - by intros [_ ->].
    - discriminate.
    - by intros [? _]. }
  destruct (omap f (page_spans pg)) as [|c cs] eqn:Hc.
  { assert ((span_size s, Py.strip (span_text s)) ∈ omap f (page_spans pg)) as Hin
      by (apply list_elem_of_omap; exists s; split; [done | by apply Hf]).
    rewrite Hc in Hin. by apply elem_of_nil in Hin. }
  pose proof (max_by_key_in c cs) as Hin. rewrite <- Hc in Hin.
  apply list_elem_of_omap in Hin as (best & Hbest & [Hbc Hbx]%Hf).
  exists best. split; [done|]. split; [done|]. split; [by rewrite Hbx|].
  intros s' Hs' Hc'.
  assert ((span_size s', Py.strip (span_text s')) ∈ c :: cs) as Hin'
    by (rewrite <- Hc; apply list_elem_of_omap; exists s'; split;
        [done | by apply Hf]).
  apply max_by_key_max in Hin'. by rewrite Hbx in Hin'.
Qed.

Lemma title_is_largest_candidate_witness :
  ∃ best,
    best ∈ page_spans (page_of [ [span "Draft" 10 0 20 32];
                                 [span "Introduction" 16 2 200 220];
                                 [span "Draft" 10 0 770 782] ])
    ∧ is_title_candidate best = true
    ∧ extract_title doc_header_footer = Ok (Py.strip (span_text best))
    ∧ ∀ s', s' ∈ page_spans (page_of [ [span "Draft" 10 0 20 32];
                                       [span "Introduction" 16 2 200 220];
                                       [span "Draft" 10 0 770 782] ]) →
            is_title_candidate s' = true →
            (span_size s' <= span_size best)%Q.
Proof.
  apply (title_is_largest_candidate doc_header_footer _
           (span "Introduction" 16 2 200 220)).
  - reflexivity.
  - reflexivity.
  - apply list_elem_of_further, list_elem_of_here.
  - vm_compute. reflexivity.
Defined.

(** ** The title read from the metadata *)

Lemma lstrip_sublist (s : Py.str) : Py.lstrip s `sublist_of` s.
Proof.
  induction s as [|c s IH]; simpl; [constructor|].
  destruct (Py.isspace c); [by constructor | done].
Qed.

Lemma rstrip_sublist (s : Py.str) : Py.rstrip s `sublist_of` s.
Proof.
  induction s as [|c s IH]; simpl; [constructor|].
  destruct (Py.rstrip s) as [|b r].
  - destruct (Py.isspace c); [apply sublist_nil_l|].
    apply sublist_skip, sublist_nil_l.
  - by apply sublist_skip.
Qed.

Lemma remove_go_sublist (old : Py.str) k (s : Py.str) :
  Py.remove_go old k s `sublist_of` s.
Proof.
  revert k. induction s as [|c s IH]; intros k; [constructor|].
  rewrite remove_go_cons. destruct k as [|k]; [|by apply sublist_cons].
  destruct (Py.startswith (c :: s) old); [by apply sublist_cons|].
  by apply sublist_skip.
Qed.

(** X14.  A title taken from the metadata is the metadata title with
    characters deleted: the extractor adds and reorders nothing. *)
Theorem metadata_title_sublist (doc : Doc) (m : Py.str) :
  metadata_title doc = Some m →
  usable_meta (Some m) = true →
  ∃ t, extract_title doc = Ok t ∧ t `sublist_of` m.
Proof.
  intros Hm Hu. unfold extract_title. rewrite Hm, Hu. simpl default.
  eexists. split; [reflexivity|].
  assert (Py.strip m `sublist_of` m) as Hstrip.
  { unfold Py.strip. etrans; [apply rstrip_sublist | apply lstrip_sublist]. }
  assert (∀ t, clean_prefix t `sublist_of` t) as Hprefix.
  { intros t. unfold clean_prefix.
    destruct (Py.startswith _ _); [apply remove_go_sublist | done]. }
  assert (∀ t, clean_suffix t `sublist_of` t) as Hsuffix.
  { intros t. unfold clean_suffix, Py.drop_last.
    destruct (_ || _); [|done]. destruct (Py.endswith _ _); apply sublist_take. }
  etrans; [apply Hsuffix|]. etrans; [apply Hprefix|]. exact Hstrip.
Qed.

Lemma metadata_title_sublist_witness :
  ∃ t, extract_title doc_budget = Ok t
       ∧ t `sublist_of` Py.lit "Microsoft Word - Budget.docx".
Proof.
  apply (metadata_title_sublist doc_budget
           (Py.lit "Microsoft Word - Budget.docx")); reflexivity.
Defined.

(** ** Batch driver *)

Section DriverFacts.
Context `{U : Unicode}.
Variable fitz_open : Py.str → result Doc.
Variable write_json : Py.str → DocumentOutline → write_outcome.

Lemma process_file_stdout w filename :
  length (stdout (process_file fitz_open write_json w filename)) =
  length (stdout w) + (if is_pdf filename then 1 else 0).
Proof.
  unfold process_file. destruct (is_pdf filename); [|lia].
  destruct (extract_outline _) as [outline_data|e];
    [destruct (write_json _ outline_data)|];
    simpl; rewrite length_app; simpl; lia.
Qed.

Lemma process_file_written w filename :
  dom (written (process_file fitz_open write_json w filename)) =
  dom (written w)
  ∪ (if touches fitz_open write_json filename
     then {[ output_path_of filename ]} else ∅).
Proof.
  unfold process_file, touches. destruct (is_pdf filename); simpl.
  - destruct (extract_outline _) as [outline_data|e]; simpl.
    + destruct (write_json _ outline_data); simpl.
      * rewrite dom_insert_L. apply union_comm_L.
      * by rewrite union_empty_r_L.
      * rewrite dom_insert_L. apply union_comm_L.
    + by rewrite union_empty_r_L.
  - by rewrite union_empty_r_L.
Qed.

End DriverFacts.

(** X15.  The driver prints one line for each directory entry whose name
    ends in ".pdf", whatever the case, and none for the others. *)
Theorem process_pdfs_one_line_each `{U : Unicode}
    (fitz_open : Py.str → result Doc)
    (write_json : Py.str → DocumentOutline → write_outcome)
    (listing : list Py.str) (w : World) :
  length (stdout (process_pdfs fitz_open write_json listing w)) =
  length (stdout w) + length (List.filter is_pdf listing).
Proof.
  unfold process_pdfs. revert w.
  induction listing as [|filename listing IH]; intros w; simpl; [lia|].
  rewrite IH, process_file_stdout.
  destruct (is_pdf filename); simpl; lia.
Qed.

(** X16.  The output files the driver creates or overwrites are those of
    the entries that end in ".pdf", whose extraction succeeds and whose
    output file opens: an entry that fails before that touches no file
    and keeps no other entry from being processed. *)
Theorem process_pdfs_written `{U : Unicode}
    (fitz_open : Py.str → result Doc)
    (write_json : Py.str → DocumentOutline → write_outcome)
    (listing : list Py.str) (w : World) :
  dom (written (process_pdfs fitz_open write_json listing w)) =
  dom (written w)
  ∪ list_to_set (output_path_of
                   <$> List.filter (touches fitz_open write_json) listing).
Proof.
  unfold process_pdfs. revert w.
  induction listing as [|filename listing IH]; intros w; simpl.
  - by rewrite union_empty_r_L.
  - rewrite IH, process_file_written.
    destruct (touches fitz_open write_json filename); simpl.
    + symmetry. apply (assoc_L (∪)).
    + by rewrite union_empty_r_L.
Qed.

Example process_pdfs_run :
  let w := @process_pdfs ascii_tables sample_open sample_write
             [Py.lit "a.pdf"; Py.lit "notes.txt"; Py.lit "broken.pdf";
              Py.lit "locked.pdf"; Py.lit "B.PDF"] empty_world in
  stdout w =
    [ Processed (Py.lit "a.pdf") (Py.lit "/app/output/a.json");
      ErrorProcessing (Py.lit "broken.pdf")
        (OpenError (Py.lit "cannot open broken document"));
      ErrorProcessing (Py.lit "locked.pdf")
        (WriteError (Py.lit "permission denied"));
      Processed (Py.lit "B.PDF") (Py.lit "/app/output/B.json") ]
  ∧ written w !! Py.lit "/app/output/B.json" = Some (Dumped doc_sample_outline)
  ∧ written w !! Py.lit "/app/output/broken.json" = None
  ∧ written w !! Py.lit "/app/output/locked.json" = None.
Proof. vm_compute. repeat split; reflexivity. Qed.

(** ** Distinct thresholds *)

Lemma insert_desc_pairwise {A} (R : relation A) `{!Symmetric R}
    (le : A → A → bool) x (l : list A) :
  Forall (R x) l → StronglySorted R l →
  StronglySorted R (insert_desc le x l).
Proof.
  intros Hx Hl. induction Hl as [|y l Hl IH Hy]; simpl.
  - repeat constructor.
  - destruct (le y x); [constructor; [by constructor | exact Hx]|].
    apply Forall_cons in Hx as [Hxy Hx].
    constructor; [by apply IH|].
    apply Forall_forall. intros z [-> | Hz]%elem_of_insert_desc.
    + by symmetry.
    + by eapply Forall_forall in Hy.
Qed.

(** Sorting keeps a list free of pairs in a symmetric relation. *)
Lemma sorted_desc_pairwise {A} (R : relation A) `{!Symmetric R}
    (le : A → A → bool) (l : list A) :
  StronglySorted R l → StronglySorted R (sorted_desc le l).
Proof.
  induction 1 as [|x l Hl IH Hx]; simpl; [constructor|].
  apply insert_desc_pairwise; [done| |done].
  apply Forall_forall. intros y Hy%elem_of_sorted_desc.
  by eapply Forall_forall in Hx.
Qed.

#[local] Instance Qneq_symmetric : Symmetric (λ a b : Q, ¬ (a == b)%Q).
Proof. intros a b Hab Hba. apply Hab. by symmetry. Qed.

#[local] Instance key_neq_symmetric :
  Symmetric (λ a b : Q * nat, ¬ (a.1 == b.1)%Q).
Proof. intros a b Hab Hba. apply Hab. by symmetry. Qed.

Lemma counter_add_pairwise x (c : list (Q * nat)) :
  StronglySorted (λ a b, ¬ (a.1 == b.1)%Q) c →
  StronglySorted (λ a b, ¬ (a.1 == b.1)%Q) (counter_add x c).
Proof.
  induction 1 as [|[k n] c Hc IH Hk]; simpl.
  - repeat constructor.
  - destruct (Qeq_bool k x) eqn:Hkx.
    + constructor; [done|]. exact Hk.
    + constructor; [exact IH|].
      apply Forall_forall. intros [k' n'] Hin. simpl.
      destruct (counter_add_keys _ _ _ _ Hin) as [-> | [n'' Hin']].
      * by apply Qeq_bool_neq.
      * eapply Forall_forall in Hk; [|exact Hin']. exact Hk.
Qed.

(** The counter holds each size once. *)
Lemma Counter_pairwise (l : list Q) :
  StronglySorted (λ a b, ¬ (a.1 == b.1)%Q) (Counter l).
Proof.
  unfold Counter.
  assert (∀ c : list (Q * nat),
            StronglySorted (λ a b, ¬ (a.1 == b.1)%Q) c →
            StronglySorted (λ a b, ¬ (a.1 == b.1)%Q)
              (foldl (λ c x, counter_add x c) c l)) as Hgen.
  { induction l as [|x l IH]; intros c Hc; simpl; [done|].
    by apply IH, counter_add_pairwise. }
  apply Hgen. constructor.
Qed.

Lemma ranked_sizes_strict (font_sizes : list Q) :
  StronglySorted (λ a b, (b < a)%Q)
    (sorted_desc Qle_bool (most_common (Counter font_sizes)).*1).
Proof.
  set (common := sorted_desc Qle_bool (most_common (Counter font_sizes)).*1).
  assert (StronglySorted (λ a b, ¬ (a == b)%Q) common) as Hne.
  { apply sorted_desc_pairwise; [apply _|].
    apply (StronglySorted_fmap fst (λ a b : Q * nat, ¬ (a.1 == b.1)%Q));
      [done|].
    apply sorted_desc_pairwise; [apply _|]. apply Counter_pairwise. }
  pose proof (sorted_desc_sorted (most_common (Counter font_sizes)).*1) as Hle.
  fold common in Hle.
  induction Hne as [|a l Hne IH Ha]; [constructor|].
  apply StronglySorted_cons in Hle as [Hla Hle].
  constructor; [by apply IH|].
  apply Forall_forall. intros b Hb.
  eapply Forall_forall in Ha; [|exact Hb].
  eapply Forall_forall in Hla; [|exact Hb]. simpl in *.
  apply Qle_lteq in Hla as [Hlt | Heq]; [done|].
  destruct Ha. by symmetry.
Qed.

(** X17.  Thresholds that are not 0 differ: the H2 size, unless it is 0,
    is below the H1 size, and the H3 size, unless it is 0, is below the
    H2 size. *)
Theorem get_heading_levels_distinct (font_sizes : list Q) :
  ∃ h1 h2 h3,
    get_heading_levels font_sizes = [h1; h2; h3]
    ∧ (¬ (h2 == 0)%Q → (h2 < h1)%Q)
    ∧ (¬ (h3 == 0)%Q → (h3 < h2)%Q).
Proof.
  pose proof (ranked_sizes_strict font_sizes) as Hs.
  unfold get_heading_levels.
  destruct (sorted_desc Qle_bool (most_common (Counter font_sizes)).*1)
    as [|a [|b [|c rest]]]; simpl.
  - exists 0%Q, 0%Q, 0%Q. split; [done|]. split; intros []; reflexivity.
  - exists a, 0%Q, 0%Q. split; [done|]. split; intros []; reflexivity.
  - exists a, b, 0%Q. split; [done|]. split; [|intros []; reflexivity].
    intros _. apply StronglySorted_cons in Hs as [Ha _].
    by apply Forall_cons in Ha as [Ha _].
  - exists a, b, c. split; [done|].
    apply StronglySorted_cons in Hs as [Ha Hs].
    apply StronglySorted_cons in Hs as [Hb _].
    apply Forall_cons in Ha as [Ha _]. apply Forall_cons in Hb as [Hb _].
    by split.
Qed.

(** ** Numerals *)

(** X18.  A text made of decimal digits and dots only is not a valid
    heading. *)
Theorem numerals_rejected `{U : Unicode} (text : Py.str) :
  Forall (λ c, isdecimal c = true ∨ c = 46%N) (Py.strip text) →
  is_valid_heading text = false.
Proof.
  intros Hall. unfold is_valid_heading.
  destruct (length (Py.strip text) <? 3) eqn:Hlen; [done|].
  assert (digits_dots (Py.strip text) = true) as Hd.
  { unfold digits_dots. destruct (Py.strip text) as [|c s] eqn:Hs; [done|].
    rewrite <- Hs in *. clear Hs. apply forallb_forall. intros x Hx.
    apply list_elem_of_In in Hx. eapply Forall_forall in Hall; [|exact Hx].
    destruct Hall as [-> | ->]; [done|]. by rewrite orb_true_r. }
  unfold match_digits_dots. by rewrite Hd.
Qed.

Lemma numerals_rejected_witness :
  @is_valid_heading ascii_tables (Py.lit " 3.1. ") = false.
Proof.
  apply (@numerals_rejected ascii_tables (Py.lit " 3.1. ")).
  vm_compute.
  repeat (apply Forall_cons; split; [first [by left | by right]|]).
  constructor.
Defined.
